(** * X Plugin: Insert_statement_builder

    A shallow embedding of [plugin/x/src/insert_statement_builder.cc]:
    the translation of a [Mysqlx::Crud::Insert] message into the text of
    an [INSERT] statement, and the [Document_id_aggregator] that mints
    the [_id] of documents that come without one.

    The builder appends to a query string and may throw an
    [ngs::Error_code]; both effects are kept: a statement is a function
    from the builder's state to an outcome and the state it leaves
    behind, and a throw leaves the text appended so far where it is. *)

From Stdlib Require Import String Ascii List ZArith NArith Bool Lia DecimalString.
Import ListNotations.
Local Open Scope string_scope.
Set Warnings "-register-all".

(** ** Protocol messages *)

(** [Mysqlx::Datatypes::Scalar]: a tagged scalar value. *)
Inductive Scalar : Type :=
| V_SINT (v_signed_int : Z)
| V_UINT (v_unsigned_int : N)
| V_NULL
| V_OCTETS (value : string) (content_type : N)
| V_DOUBLE (v_double : N)
| V_FLOAT (v_float : N)
| V_BOOL (v_bool : bool)
| V_STRING (value : string) (collation : option N).

(** [Mysqlx::Expr::Expr]: the kinds of expression a row field can hold.
    An object is its ordered list of members, [fld], each a key and an
    expression. *)
Inductive Expr : Type :=
| IDENT (identifier : string)
| LITERAL (literal : Scalar)
| VARIABLE (variable : string)
| FUNC_CALL (function_name : string) (param : list Expr)
| OPERATOR (operator_name : string) (param : list Expr)
| PLACEHOLDER (position : N)
| OBJECT (fld : list (string * Expr))
| ARRAY (elements : list Expr).

Definition Object := list (string * Expr).
Definition Placeholder := N.
Definition Arg_list := list Scalar.
Definition Field_list := list Expr.

Record Column : Type := { name : string; alias : string }.
Definition Projection_list := list Column.

Record Collection : Type := { collection_schema : string; collection_name : string }.

(** A row of the message: [Mysqlx::Crud::Insert::TypedRow]. *)
Record TypedRow : Type := { field : Field_list }.
Definition Row_list := list TypedRow.

(** [Mysqlx::Crud::DataModel]. *)
Inductive DataModel : Type := DOCUMENT | TABLE.

(** [Mysqlx::Crud::Insert]. *)
Record Insert : Type := {
  collection : Collection;
  data_model : DataModel;
  projection : Projection_list;
  row : Row_list;
  upsert : bool
}.

(** ** Errors *)

Inductive Error_number : Type :=
| ER_X_BAD_PROJECTION
| ER_X_MISSING_ARGUMENT
| ER_X_BAD_INSERT_DATA
| ER_INTERNAL_ERROR
| ER_OTHER (errno : Z).

(** [ngs::Error_code]: a code and a message. *)
Record Error_code : Type := { error : Error_number; message : string }.

(** The error kinds of the specification, each the value thrown at one
    place of the source. *)
Definition BadProjection : Error_code :=
  {| error := ER_X_BAD_PROJECTION;
     message := "Invalid projection for document operation" |}.
Definition MissingRows : Error_code :=
  {| error := ER_X_MISSING_ARGUMENT;
     message := "Missing row data for Insert" |}.
Definition RowArityMismatch : Error_code :=
  {| error := ER_X_BAD_INSERT_DATA;
     message := "Wrong number of fields in row being inserted" |}.
Definition UpsertNotSupported : Error_code :=
  {| error := ER_X_BAD_INSERT_DATA;
     message := "Unable update on duplicate key for TABLE data model" |}.
Definition ConfigFetchFailed : Error_code :=
  {| error := ER_INTERNAL_ERROR; message := "Error executing statement" |}.

(** How a call ends: it returns, or an [ngs::Error_code] is thrown. *)
Inductive Outcome (A : Type) : Type :=
| Done (a : A)
| Thrown (e : Error_code).
Arguments Done {A} a.
Arguments Thrown {A} e.

(** ** Collaborators *)

(** [ngs::Document_id_generator_interface::Variables]. *)
Record Variables : Type := {
  prefix : N;
  auto_increment_offset : N;
  auto_increment_increment : N
}.

(** What the builder drives but does not define: the quoting of the
    query string builder, the expression generator behind
    [Generator::put_expr], the rendering of the collection inherited
    from [Crud_statement_builder], [is_id_in_json] of [json_utils.h],
    the content-type constants of [Expression_generator], the stringified
    [ER_X_BAD_UPSERT_DATA] and the id generator of the session.  The
    generator is stateful: [generate] takes its state and returns the
    next one together with the id.  A renderer returns the text it
    appends to the query string; what the collaborators may throw of
    their own is not part of this model. *)
Class Collaborators : Type := {
  Id_generator : Type;
  generate : Variables -> Id_generator -> string * Id_generator;
  quote_string : string -> string;
  quote_identifier : string -> string;
  gen_expr : Arg_list -> Expr -> string;
  gen_scalar : Arg_list -> Scalar -> string;
  gen_object : Arg_list -> Object -> string;
  gen_collection : Collection -> string;
  is_id_in_json : string -> bool;
  CT_PLAIN : N;
  CT_JSON : N;
  ER_X_BAD_UPSERT_DATA : string
}.

Section Builder.

Context {C : Collaborators}.

(** ** State *)

(** [Document_id_aggregator]: the generator it draws from, the variables
    it passes to it and the list of ids it has minted. *)
Record Document_id_aggregator : Type := {
  m_base_id_generator : Id_generator;
  m_variables : Variables;
  m_document_ids : list string
}.

(** What a build can change: the text of the query string builder and the
    aggregator. *)
Record Builder_state : Type := {
  m_builder : string;
  m_document_id_aggregator : Document_id_aggregator
}.

(** A statement of the builder. *)
Definition Stmt (A : Type) : Type := Builder_state -> Outcome A * Builder_state.

Definition ret {A} (a : A) : Stmt A := fun s => (Done a, s).

Definition bind {A B} (c : Stmt A) (k : A -> Stmt B) : Stmt B :=
  fun s =>
    match c s with
    | (Done a, s') => k a s'
    | (Thrown e, s') => (Thrown e, s')
    end.

Definition throw {A} (e : Error_code) : Stmt A := fun s => (Thrown e, s).

Notation "c1 ;; c2" := (bind c1 (fun _ => c2))
  (at level 61, right associativity).
Notation "x <- c1 ;; c2" := (bind c1 (fun x => c2))
  (at level 61, c1 at next level, right associativity).

(** ** Generator *)

(** [Generator::put]: append raw text. *)
Definition put (text : string) : Stmt unit :=
  fun s => (Done tt, {| m_builder := m_builder s ++ text;
                        m_document_id_aggregator := m_document_id_aggregator s |}).

(** The state after [text] has been appended. *)
Definition emit (s : Builder_state) (text : string) : Builder_state :=
  {| m_builder := m_builder s ++ text;
     m_document_id_aggregator := m_document_id_aggregator s |}.

(** The id the generator returns in state [s], and the state after that
    one call whose id has been recorded. *)
Definition minted_id (s : Builder_state) : string :=
  fst (generate (m_variables (m_document_id_aggregator s))
                (m_base_id_generator (m_document_id_aggregator s))).

Definition minted (s : Builder_state) : Builder_state :=
  {| m_builder := m_builder s;
     m_document_id_aggregator :=
       {| m_base_id_generator :=
            snd (generate (m_variables (m_document_id_aggregator s))
                          (m_base_id_generator (m_document_id_aggregator s)));
          m_variables := m_variables (m_document_id_aggregator s);
          m_document_ids :=
            m_document_ids (m_document_id_aggregator s) ++ [minted_id s] |} |}.

(** The buffer of [s'] is the buffer of [s] with some text appended. *)
Definition extends (s s' : Builder_state) : Prop :=
  exists text, m_builder s' = m_builder s ++ text.

Definition put_quote (text : string) : Stmt unit := put (quote_string text).
Definition put_identifier (text : string) : Stmt unit := put (quote_identifier text).

Section With_args.

(** The bound arguments [m_builder.args()]. *)
Variable args : Arg_list.

Definition put_expr (e : Expr) : Stmt unit := put (gen_expr args e).
Definition put_expr_scalar (a : Scalar) : Stmt unit := put (gen_scalar args a).
Definition put_expr_object (o : Object) : Stmt unit := put (gen_object args o).

(** Modelled from the spec: [Generator::put_list] is declared in
    [statement_builder.h]; the rendered items are "comma-joined", so the
    first item is generated as it is and each later one after a comma. *)
Fixpoint put_list_rest {A} (generate_item : A -> Stmt unit) (l : list A) : Stmt unit :=
  match l with
  | [] => ret tt
  | x :: l' => put "," ;; generate_item x ;; put_list_rest generate_item l'
  end.

Definition put_list {A} (l : list A) (generate_item : A -> Stmt unit) : Stmt unit :=
  match l with
  | [] => ret tt
  | x :: l' => generate_item x ;; put_list_rest generate_item l'
  end.

(** Modelled from the spec: [add_collection] is inherited from
    [Crud_statement_builder]; the collection is forwarded to the
    collaborator that renders it. *)
Definition add_collection (c : Collection) : Stmt unit := put (gen_collection c).

(** Modelled from the spec: [is_table_data_model] is inherited from
    [Crud_statement_builder]; the request is relational when its data
    model is the table one. *)
Definition is_table_data_model (msg : Insert) : bool :=
  match data_model msg with TABLE => true | DOCUMENT => false end.

(** ** Document_id_aggregator *)

(** Modelled from the spec: [add_id] is defined in the header; a
    synthesis appends the new id to the list of generated ids. *)
Definition add_id (id : string) : Stmt unit :=
  fun s =>
    let agg := m_document_id_aggregator s in
    (Done tt,
     {| m_builder := m_builder s;
        m_document_id_aggregator :=
          {| m_base_id_generator := m_base_id_generator agg;
             m_variables := m_variables agg;
             m_document_ids := m_document_ids agg ++ [id] |} |}).

(** One call of the session's id generator, with the aggregator's
    variables. *)
Definition base_generate : Stmt string :=
  fun s =>
    let agg := m_document_id_aggregator s in
    let (id, g) := generate (m_variables agg) (m_base_id_generator agg) in
    (Done id,
     {| m_builder := m_builder s;
        m_document_id_aggregator :=
          {| m_base_id_generator := g;
             m_variables := m_variables agg;
             m_document_ids := m_document_ids agg |} |}).

(** [m_document_ids->back()]. *)
Definition back : Stmt string :=
  fun s => (Done (last (m_document_ids (m_document_id_aggregator s)) EmptyString), s).

Definition generate_id : Stmt string :=
  id <- base_generate ;;
  add_id id ;;
  back.

(** ** Insert_statement_builder *)

Definition add_projection (projection : Projection_list) (is_relational : bool) : Stmt unit :=
  if is_relational then
    if negb (Z.of_nat (length projection) =? 0)%Z then
      put " (" ;;
      put_list projection (fun c => put_identifier (name c)) ;;
      put ")"
    else ret tt
  else
    (if negb (Z.of_nat (length projection) =? 0)%Z then
       throw {| error := ER_X_BAD_PROJECTION;
                message := "Invalid projection for document operation" |}
     else ret tt) ;;
    put " (doc)".

Definition add_row (row : Field_list) (projection_size : Z) : Stmt unit :=
  (if (Z.of_nat (length row) =? 0)%Z
      || (negb (projection_size =? 0)%Z
          && negb (Z.of_nat (length row) =? projection_size)%Z)
   then throw {| error := ER_X_BAD_INSERT_DATA;
                 message := "Wrong number of fields in row being inserted" |}
   else ret tt) ;;
  put "(" ;; put_list row put_expr ;; put ")".

Definition add_values (values : Row_list) (projection_size : Z) : Stmt unit :=
  (if (Z.of_nat (length values) =? 0)%Z
   then throw {| error := ER_X_MISSING_ARGUMENT;
                 message := "Missing row data for Insert" |}
   else ret tt) ;;
  put " VALUES " ;;
  put_list values (fun row => add_row (field row) projection_size).

(** In the chained calls that emit [JSON_SET], [generate_id] is an
    argument of the last [put_quote]; it does not touch the query string
    and the [put]s do not touch the aggregator, so it is run here where
    its result is needed. *)
Definition add_document_literal (arg : Scalar) : Stmt bool :=
  match arg with
  | V_OCTETS value content_type =>
      if negb (content_type =? CT_PLAIN)%N && negb (content_type =? CT_JSON)%N
      then ret false
      else
        (if is_id_in_json value
         then put "(" ;; put_quote value ;; put ")"
         else put "(JSON_SET(" ;;
              put_quote value ;;
              put ", '$._id', " ;;
              id <- generate_id ;;
              put_quote id ;;
              put "))") ;;
        ret true
  | V_STRING value _ =>
      (if is_id_in_json value
       then put "(" ;; put_expr_scalar arg ;; put ")"
       else put "(JSON_SET(" ;;
            put_quote value ;;
            put ", '$._id', " ;;
            id <- generate_id ;;
            put_quote id ;;
            put "))") ;;
      ret true
  | _ => ret false
  end.

Definition add_document_placeholder (arg : Placeholder) : Stmt bool :=
  if (arg <? N.of_nat (length args))%N
  then match nth_error args (N.to_nat arg) with
       | Some a => add_document_literal a
       | None => ret false
       end
  else ret false.

Fixpoint is_id_in_object (arg : Object) : bool :=
  match arg with
  | [] => false
  | (key, _) :: fld' => if (key =? "_id")%string then true else is_id_in_object fld'
  end.

Definition add_document_object (arg : Object) : Stmt unit :=
  if is_id_in_object arg
  then put "(" ;; put_expr_object arg ;; put ")"
  else put "(JSON_SET(" ;;
       put_expr_object arg ;;
       put ", '$._id', " ;;
       id <- generate_id ;;
       put_quote id ;;
       put "))".

Definition add_document (row : Field_list) : Stmt unit :=
  match row with
  | [doc] =>
      handled <-
        match doc with
        | LITERAL literal => add_document_literal literal
        | PLACEHOLDER position => add_document_placeholder position
        | OBJECT object => add_document_object object ;; ret true
        | _ => ret false
        end ;;
      if handled then ret tt
      else put "(" ;; put_expr doc ;; put ")"
  | _ => throw {| error := ER_X_BAD_INSERT_DATA;
                  message := "Wrong number of fields in row being inserted" |}
  end.

Definition add_documents (values : Row_list) : Stmt unit :=
  (if (Z.of_nat (length values) =? 0)%Z
   then throw {| error := ER_X_MISSING_ARGUMENT;
                 message := "Missing row data for Insert" |}
   else ret tt) ;;
  put " VALUES " ;;
  put_list values (fun row => add_document (field row)).

(** The conflict clause: one constant text. *)
Definition upsert_clause : string :=
  " ON DUPLICATE KEY UPDATE"
  ++ " doc = IF(JSON_UNQUOTE(JSON_EXTRACT(doc, '$._id'))"
  ++ " = JSON_UNQUOTE(JSON_EXTRACT(VALUES(doc), '$._id')),"
  ++ " VALUES(doc), MYSQLX_ERROR(" ++ ER_X_BAD_UPSERT_DATA ++ "))".

Definition add_upsert (is_relational : bool) : Stmt unit :=
  (if is_relational
   then throw {| error := ER_X_BAD_INSERT_DATA;
                 message := "Unable update on duplicate key for TABLE data model" |}
   else ret tt) ;;
  put upsert_clause.

Definition build (msg : Insert) : Stmt unit :=
  put "INSERT INTO " ;;
  let is_relational := is_table_data_model msg in
  add_collection (collection msg) ;;
  add_projection (projection msg) is_relational ;;
  (if is_relational
   then add_values (row msg) (Z.of_nat (length (projection msg)))
   else add_documents (row msg)) ;;
  if upsert msg then add_upsert is_relational else ret tt.

(** ** Vocabulary of the properties *)

(** The JSON text of an accepted literal: octets whose content type is
    plain or JSON, or a string. *)
Definition accepted_literal (a : Scalar) : option string :=
  match a with
  | V_OCTETS value content_type =>
      if (content_type =? CT_PLAIN)%N || (content_type =? CT_JSON)%N
      then Some value else None
  | V_STRING value _ => Some value
  | _ => None
  end.

(** The document a row field stands for: the text of an accepted literal,
    given inline or through a placeholder that resolves to it, an object,
    or anything else, which is left to the generic rendering. *)
Inductive Document_value : Type :=
| Json_text (a : Scalar) (value : string)
| Json_object (o : Object)
| Generic.

Definition literal_value (a : Scalar) : Document_value :=
  match accepted_literal a with
  | Some value => Json_text a value
  | None => Generic
  end.

Definition document_value (doc : Expr) : Document_value :=
  match doc with
  | LITERAL a => literal_value a
  | PLACEHOLDER p =>
      match nth_error args (N.to_nat p) with
      | Some a => literal_value a
      | None => Generic
      end
  | OBJECT o => Json_object o
  | _ => Generic
  end.

(** Whether the document has a top-level [_id] member. *)
Definition contains_id (v : Document_value) : bool :=
  match v with
  | Json_text _ value => is_id_in_json value
  | Json_object o => is_id_in_object o
  | Generic => false
  end.

(** The text of a document that is left as it is: quoted octets, the
    expression generator's rendering of a string or of an object. *)
Definition kept_text (v : Document_value) : string :=
  match v with
  | Json_text (V_OCTETS _ _) value => quote_string value
  | Json_text a _ => gen_scalar args a
  | Json_object o => gen_object args o
  | Generic => EmptyString
  end.

(** The first argument of [JSON_SET] for a document that gets an id:
    the quoted text of a literal, the rendering of an object. *)
Definition set_text (v : Document_value) : string :=
  match v with
  | Json_text _ value => quote_string value
  | Json_object o => gen_object args o
  | Generic => EmptyString
  end.

(** The state in which rendering the document row [doc] leaves [s]. *)
Definition rendered (doc : Expr) (s : Builder_state) : Builder_state :=
  match document_value doc with
  | Generic => emit s ("(" ++ gen_expr args doc ++ ")")
  | v =>
      if contains_id v
      then emit s ("(" ++ kept_text v ++ ")")
      else emit (minted s)
                ("(JSON_SET(" ++ set_text v ++ ", '$._id', "
                 ++ quote_string (minted_id s) ++ "))")
  end.

(** A relational row passes the check of [add_row]. *)
Definition row_arity_ok (projection_size : nat) (r : TypedRow) : Prop :=
  field r <> [] /\ (projection_size <> 0%nat -> length (field r) = projection_size).

(** The texts of a statement: its head, its column list, a relational
    row. *)
Definition header (msg : Insert) : string :=
  "INSERT INTO " ++ gen_collection (collection msg).

Definition column_list (msg : Insert) : string :=
  match data_model msg with
  | DOCUMENT => " (doc)"
  | TABLE =>
      match projection msg with
      | [] => EmptyString
      | p => " (" ++ String.concat "," (map (fun c => quote_identifier (name c)) p) ++ ")"
      end
  end.

Definition row_text (r : TypedRow) : string :=
  "(" ++ String.concat "," (map (gen_expr args) (field r)) ++ ")".

(** The values stage of a build, for either data model. *)
Definition add_rows (msg : Insert) : Stmt unit :=
  if is_table_data_model msg
  then add_values (row msg) (Z.of_nat (length (projection msg)))
  else add_documents (row msg).

(** The request with its upsert flag cleared. *)
Definition without_upsert (msg : Insert) : Insert :=
  {| collection := collection msg; data_model := data_model msg;
     projection := projection msg; row := row msg; upsert := false |}.

(** A row statement returns after appending to the buffer, or throws the
    arity error and leaves the state as it was. *)
Definition row_stmt (c : Stmt unit) : Prop :=
  forall s,
    (exists s', c s = (Done tt, s') /\ extends s s')
    \/ c s = (Thrown RowArityMismatch, s).

(** Whether rendering the document row mints an id: its value is on the
    identity path and has no top-level [_id]. *)
Definition needs_id (doc : Expr) : bool :=
  match document_value doc with
  | Generic => false
  | v => negb (contains_id v)
  end.

(** The text of a document row for which no id is minted. *)
Definition document_text (doc : Expr) : string :=
  match document_value doc with
  | Generic => "(" ++ gen_expr args doc ++ ")"
  | v => "(" ++ kept_text v ++ ")"
  end.

Definition row_needs_id (r : TypedRow) : bool :=
  match field r with
  | [doc] => needs_id doc
  | _ => false
  end.

Definition document_row_text (r : TypedRow) : string :=
  match field r with
  | [doc] => document_text doc
  | _ => EmptyString
  end.

(** The ids generated so far. *)
Definition generated_ids (s : Builder_state) : list string :=
  m_document_ids (m_document_id_aggregator s).

(** From [s] to [s'] the variables are the same and ids were only
    appended. *)
Definition ids_grow (s s' : Builder_state) : Prop :=
  m_variables (m_document_id_aggregator s')
  = m_variables (m_document_id_aggregator s)
  /\ exists new, generated_ids s' = (generated_ids s ++ new)%list.

Definition same_aggregator (s s' : Builder_state) : Prop :=
  m_document_id_aggregator s' = m_document_id_aggregator s.

(** A statement keeps the relation [R] between the state it starts in
    and the state it leaves, whether it returns or throws. *)
Definition preserves (R : Builder_state -> Builder_state -> Prop)
           {A} (c : Stmt A) : Prop :=
  forall s, R s (snd (c s)).

Definition with_buffer (b : string) (agg : Document_id_aggregator) : Builder_state :=
  {| m_builder := b; m_document_id_aggregator := agg |}.

(** A statement only appends: its outcome, the text it appends and the
    aggregator it leaves do not depend on what the buffer holds. *)
Definition appends {A} (c : Stmt A) : Prop :=
  forall agg, exists o text agg',
    forall b, c (with_buffer b agg) = (o, with_buffer (b ++ text) agg').

(** How one document row is rendered, its text and the ids minted for
    it: a value on the identity path that has its [_id] is kept as it is
    and no id is minted; one that has none is wrapped in [JSON_SET] with
    the one id minted for it; anything else is rendered by the expression
    generator and no id is minted. *)
Definition Row_rendering (doc : Expr) (text : string) (ids : list string) : Prop :=
  match document_value doc with
  | Generic => text = "(" ++ gen_expr args doc ++ ")" /\ ids = []
  | v =>
      (contains_id v = true /\ text = "(" ++ kept_text v ++ ")" /\ ids = [])
      \/ (contains_id v = false
          /\ exists id,
               ids = [id]
               /\ text = "(JSON_SET(" ++ set_text v ++ ", '$._id', "
                         ++ quote_string id ++ "))")
  end.

(** The statement run for one row of the request. *)
Definition add_one_row (msg : Insert) (r : TypedRow) : Stmt unit :=
  if is_table_data_model msg
  then add_row (field r) (Z.of_nat (length (projection msg)))
  else add_document (field r).

(** A row that the check of its data model refuses. *)
Definition bad_row (msg : Insert) (r : TypedRow) : Prop :=
  match data_model msg with
  | TABLE =>
      field r = []
      \/ (projection msg <> [] /\ length (field r) <> length (projection msg))
  | DOCUMENT => length (field r) <> 1%nat
  end.

(** The request with the given rows in place of its own and its upsert
    flag cleared. *)
Definition with_rows (msg : Insert) (rows : Row_list) : Insert :=
  {| collection := collection msg; data_model := data_model msg;
     projection := projection msg; row := rows; upsert := false |}.

End With_args.

(** ** Document_id_aggregator::configue *)

(** Modelled from the spec: [ngs::Sql_session_interface] and
    [Sql_data_result] are not part of this file; the session executes
    one statement and returns a result set of fixed shape, rows of three
    unsigned 16-bit values, or throws.  [answer] is what the session
    replies to a statement and [executed] the statements it has run. *)
Record Sql_session : Type := {
  answer : string -> Outcome (list (N * N * N));
  executed : list string
}.

Definition query (sql : string) (data_context : Sql_session)
  : Outcome (list (N * N * N)) * Sql_session :=
  (answer data_context sql,
   {| answer := answer data_context;
      executed := executed data_context ++ [sql] |}).

Definition configue_sql : string :=
  "SELECT @@mysqlx_document_id_unique_prefix,"
  ++ "@@auto_increment_offset,@@auto_increment_increment".

(** The returned [ngs::Error_code] is [None] for [ngs::Success()]. *)
Definition configue (data_context : Sql_session) (agg : Document_id_aggregator)
  : option Error_code * Document_id_aggregator * Sql_session :=
  match query configue_sql data_context with
  | (Done result, data_context') =>
      if negb (Z.of_nat (length result) =? 1)%Z
      then (Some {| error := ER_INTERNAL_ERROR;
                    message := "Error executing statement" |},
            agg, data_context')
      else
        match result with
        | (prefix, offset, increment) :: _ =>
            (None,
             {| m_base_id_generator := m_base_id_generator agg;
                m_variables := {| prefix := prefix;
                                  auto_increment_offset := offset;
                                  auto_increment_increment := increment |};
                m_document_ids := m_document_ids agg |},
             data_context')
        | [] => (None, agg, data_context')
        end
  | (Thrown e, data_context') => (Some e, agg, data_context')
  end.

(** Modelled from the spec: the caller that owns the aggregator is not
    part of this file.  An aggregator is constructed fresh for one build,
    over the generator of the session and an empty list of ids; its
    configuration is fetched once, before any synthesis; a failed fetch
    aborts the build, and no statement is built. *)
Definition insert (args : Arg_list) (data_context : Sql_session)
           (base_gen : Id_generator) (variables : Variables) (msg : Insert)
  : Outcome unit * Builder_state * Sql_session :=
  let agg := {| m_base_id_generator := base_gen;
                m_variables := variables;
                m_document_ids := [] |} in
  match configue data_context agg with
  | (Some e, agg', data_context') =>
      (Thrown e, with_buffer EmptyString agg', data_context')
  | (None, agg', data_context') =>
      (build args msg (with_buffer EmptyString agg'), data_context')
  end.

End Builder.

(** ** A concrete set of collaborators

    Modelled from the spec: the collaborators are not part of this file.
    These stand-ins, in the manner of the mocks of the unit tests, let
    the builder run on concrete requests: a quoted string literal is the
    text between single quotes, quote and backslash escaped; an
    identifier is back-quoted; [is_id_in_json] searches the text for the
    quoted key [_id]; the generator counts; the content types plain and
    JSON are 0 and 2. *)
Module Sample.

Definition dquote : string := String (ascii_of_nat 34) EmptyString.

Fixpoint escape_string (s : string) : string :=
  match s with
  | EmptyString => EmptyString
  | String c s' =>
      if (Ascii.eqb c "'" || Ascii.eqb c (ascii_of_nat 92))%bool
      then String (ascii_of_nat 92) (String c (escape_string s'))
      else String c (escape_string s')
  end.

Definition quote_string (s : string) : string := "'" ++ escape_string s ++ "'".

Fixpoint escape_identifier (s : string) : string :=
  match s with
  | EmptyString => EmptyString
  | String c s' =>
      if Ascii.eqb c "`"
      then String c (String c (escape_identifier s'))
      else String c (escape_identifier s')
  end.

Definition quote_identifier (s : string) : string := "`" ++ escape_identifier s ++ "`".

Definition decimal (n : N) : string := NilEmpty.string_of_uint (N.to_uint n).

Definition gen_scalar (args : Arg_list) (a : Scalar) : string :=
  match a with
  | V_SINT v => if (v <? 0)%Z then "-" ++ decimal (Z.abs_N v) else decimal (Z.abs_N v)
  | V_UINT v => decimal v
  | V_NULL => "NULL"
  | V_OCTETS value _ => quote_string value
  | V_DOUBLE v => decimal v
  | V_FLOAT v => decimal v
  | V_BOOL v => if v then "TRUE" else "FALSE"
  | V_STRING value _ => quote_string value
  end.

Fixpoint gen_expr (args : Arg_list) (e : Expr) {struct e} : string :=
  match e with
  | IDENT i => quote_identifier i
  | LITERAL l => gen_scalar args l
  | VARIABLE v => "@" ++ v
  | FUNC_CALL f ps => f ++ "(" ++ String.concat "," (map (gen_expr args) ps) ++ ")"
  | OPERATOR o ps => "(" ++ String.concat (" " ++ o ++ " ") (map (gen_expr args) ps) ++ ")"
  | PLACEHOLDER p =>
      match nth_error args (N.to_nat p) with
      | Some a => gen_scalar args a
      | None => "?"
      end
  | OBJECT fld =>
      "JSON_OBJECT("
      ++ String.concat "," (map (fun '(k, v) => quote_string k ++ "," ++ gen_expr args v) fld)
      ++ ")"
  | ARRAY vs => "JSON_ARRAY(" ++ String.concat "," (map (gen_expr args) vs) ++ ")"
  end.

Definition gen_object (args : Arg_list) (o : Object) : string := gen_expr args (OBJECT o).

Definition gen_collection (c : Collection) : string :=
  quote_identifier (collection_schema c) ++ "." ++ quote_identifier (collection_name c).

Definition is_id_in_json (s : string) : bool :=
  match index 0 (dquote ++ "_id" ++ dquote) s with
  | Some _ => true
  | None => false
  end.

Definition generate (v : Variables) (n : N) : string * N :=
  (decimal (prefix v) ++ "-" ++ decimal n, N.succ n).

#[export] Instance collaborators : Collaborators :=
  Build_Collaborators N generate quote_string quote_identifier
    gen_expr gen_scalar gen_object gen_collection is_id_in_json
    0%N 2%N "5018".

(** A fresh builder: an empty query string and an aggregator that has
    minted nothing. *)
Definition fresh : Builder_state :=
  {| m_builder := EmptyString;
     m_document_id_aggregator :=
       {| m_base_id_generator := 0%N;
          m_variables := {| prefix := 7; auto_increment_offset := 1;
                            auto_increment_increment := 1 |};
          m_document_ids := [] |} |}.

Definition coll : Collection := {| collection_schema := "s"; collection_name := "c" |}.
Definition col (n : string) : Column := {| name := n; alias := EmptyString |}.

(** The text [{"_id": 1}] and the text [{"a": 1}]. *)
Definition json_with_id : string := "{" ++ dquote ++ "_id" ++ dquote ++ ": 1}".
Definition json_without_id : string := "{" ++ dquote ++ "a" ++ dquote ++ ": 1}".

Definition doc_request (rows : list Field_list) (ups : bool) : Insert :=
  {| collection := coll; data_model := DOCUMENT; projection := [];
     row := map (fun r => {| field := r |}) rows; upsert := ups |}.

Definition table_request (cols : list string) (rows : list Field_list) (ups : bool) : Insert :=
  {| collection := coll; data_model := TABLE; projection := map col cols;
     row := map (fun r => {| field := r |}) rows; upsert := ups |}.

(** A document request with a projection, and the rows used below. *)
Definition projected_doc_request (rows : list Field_list) : Insert :=
  {| collection := coll; data_model := DOCUMENT; projection := [col "a"];
     row := map (fun r => {| field := r |}) rows; upsert := false |}.

Definition one : Expr := LITERAL (V_SINT 1).
Definition two : Expr := LITERAL (V_SINT 2).
Definition doc_with_id : Expr := LITERAL (V_OCTETS json_with_id 2).
Definition doc_without_id : Expr := LITERAL (V_OCTETS json_without_id 2).

(** A session that answers every statement with the given rows. *)
Definition session (rows : list (N * N * N)) : Sql_session :=
  {| answer := fun _ => Done rows; executed := [] |}.

Definition aggregator : Document_id_aggregator :=
  m_document_id_aggregator fresh.

(** A document request whose second row has no field. *)
Definition short_row_request : Insert :=
  doc_request [[doc_without_id]; []] false.

(** A session in which every statement throws [e]. *)
Definition broken_session (e : Error_code) : Sql_session :=
  {| answer := fun _ => Thrown e; executed := [] |}.

End Sample.


(** * Properties *)

Section Properties.

Context {C : Collaborators}.
Variable args : Arg_list.

(** ** Text and state *)

Lemma append_assoc (a b c : string) : (a ++ b) ++ c = a ++ b ++ c.
Proof.
  induction a as [|ch a IH]; simpl; [reflexivity | now rewrite IH].
Qed.

Lemma append_empty_r (a : string) : a ++ EmptyString = a.
Proof.
  induction a as [|ch a IH]; simpl; [reflexivity | now rewrite IH].
Qed.

Lemma emit_emit (s : Builder_state) (a b : string) :
  emit (emit s a) b = emit s (a ++ b).
Proof.
  unfold emit; simpl. now rewrite append_assoc.
Qed.

Lemma emit_empty (s : Builder_state) : emit s EmptyString = s.
Proof.
  destruct s; unfold emit; simpl. now rewrite append_empty_r.
Qed.

Lemma minted_emit (s : Builder_state) (a : string) :
  minted (emit s a) = emit (minted s) a.
Proof. reflexivity. Qed.

Lemma minted_id_emit (s : Builder_state) (a : string) :
  minted_id (emit s a) = minted_id s.
Proof. reflexivity. Qed.

Lemma extends_refl s : extends s s.
Proof. exists EmptyString. now rewrite append_empty_r. Qed.

Lemma extends_trans s1 s2 s3 : extends s1 s2 -> extends s2 s3 -> extends s1 s3.
Proof.
  intros [a Ha] [b Hb]. exists (a ++ b). now rewrite Hb, Ha, append_assoc.
Qed.

Lemma extends_emit s a : extends s (emit s a).
Proof. now exists a. Qed.

Lemma extends_minted s : extends s (minted s).
Proof. exists EmptyString. simpl. now rewrite append_empty_r. Qed.

(** ** Running statements *)

Lemma bind_done {A B} (c : Stmt A) (k : A -> Stmt B) s a s' :
  c s = (Done a, s') -> bind c k s = k a s'.
Proof. unfold bind. now intros ->. Qed.

Lemma bind_thrown {A B} (c : Stmt A) (k : A -> Stmt B) s e s' :
  c s = (Thrown e, s') -> bind c k s = (Thrown e, s').
Proof. unfold bind. now intros ->. Qed.

Lemma put_run text s : put text s = (Done tt, emit s text).
Proof. reflexivity. Qed.

Lemma generate_id_run s : generate_id s = (Done (minted_id s), minted s).
Proof.
  unfold generate_id, bind, base_generate, add_id, back, minted, minted_id.
  destruct (generate _ _) as [id g]; simpl.
  now rewrite last_last.
Qed.

(** ** Lists *)

Lemma concat_join (sep a b : string) (l : list string) :
  String.concat sep ((a ++ sep ++ b) :: l) = a ++ sep ++ String.concat sep (b :: l).
Proof.
  destruct l as [|y l]; simpl; [reflexivity|].
  now rewrite !append_assoc.
Qed.

Lemma put_list_rest_puts {A} (f : A -> Stmt unit) (g : A -> string) (l : list A) :
  (forall x, In x l -> forall s, f x s = (Done tt, emit s (g x))) ->
  forall text s,
    put_list_rest f l (emit s text)
    = (Done tt, emit s (String.concat "," (text :: map g l))).
Proof.
  induction l as [|x l IH]; intros Hf text s.
  - reflexivity.
  - cbn [put_list_rest].
    rewrite (bind_done _ _ _ _ _ (put_run _ _)).
    rewrite (bind_done _ _ _ _ _ (Hf x (or_introl eq_refl) _)).
    rewrite !emit_emit.
    rewrite IH by (intros y Hy; apply Hf; now right).
    cbn [map]. now rewrite concat_join.
Qed.

(** A list whose items each append a text is rendered comma-joined. *)
Lemma put_list_puts {A} (f : A -> Stmt unit) (g : A -> string) (l : list A) :
  (forall x, In x l -> forall s, f x s = (Done tt, emit s (g x))) ->
  forall s, put_list l f s = (Done tt, emit s (String.concat "," (map g l))).
Proof.
  intros Hf s. destruct l as [|x l].
  - cbn. now rewrite emit_empty.
  - cbn [put_list].
    rewrite (bind_done _ _ _ _ _ (Hf x (or_introl eq_refl) _)).
    rewrite (put_list_rest_puts f g) by (intros y Hy; apply Hf; now right).
    reflexivity.
Qed.

Lemma put_list_rest_rows {A} (f : A -> Stmt unit) (l : list A) :
  (forall x, In x l -> row_stmt (f x)) ->
  forall s,
    (exists s', put_list_rest f l s = (Done tt, s') /\ extends s s')
    \/ (exists s', put_list_rest f l s = (Thrown RowArityMismatch, s') /\ extends s s').
Proof.
  induction l as [|x l IH]; intros Hf s.
  - left. exists s. split; [reflexivity | apply extends_refl].
  - cbn [put_list_rest].
    rewrite (bind_done _ _ _ _ _ (put_run _ _)).
    destruct (Hf x (or_introl eq_refl) (emit s ",")) as [(s1 & H1 & E1) | H1].
    + rewrite (bind_done _ _ _ _ _ H1).
      assert (E : extends s s1) by (eapply extends_trans; [apply extends_emit | exact E1]).
      destruct (IH (fun y Hy => Hf y (or_intror Hy)) s1) as [(s2 & H2 & E2) | (s2 & H2 & E2)];
        [left | right]; exists s2; (split; [exact H2 | eapply extends_trans; eassumption]).
    + rewrite (bind_thrown _ _ _ _ _ H1).
      right. eexists. split; [reflexivity | apply extends_emit].
Qed.

(** A list of row statements returns or throws the arity error; either
    way the buffer has only grown. *)
Lemma put_list_rows {A} (f : A -> Stmt unit) (l : list A) :
  (forall x, In x l -> row_stmt (f x)) ->
  forall s,
    (exists s', put_list l f s = (Done tt, s') /\ extends s s')
    \/ (exists s', put_list l f s = (Thrown RowArityMismatch, s') /\ extends s s').
Proof.
  intros Hf s. destruct l as [|x l].
  - left. exists s. split; [reflexivity | apply extends_refl].
  - cbn [put_list].
    destruct (Hf x (or_introl eq_refl) s) as [(s1 & H1 & E1) | H1].
    + rewrite (bind_done _ _ _ _ _ H1).
      destruct (put_list_rest_rows f l (fun y Hy => Hf y (or_intror Hy)) s1)
        as [(s2 & H2 & E2) | (s2 & H2 & E2)];
        [left | right]; exists s2; (split; [exact H2 | eapply extends_trans; eassumption]).
    + rewrite (bind_thrown _ _ _ _ _ H1).
      right. exists s. split; [reflexivity | apply extends_refl].
Qed.

Lemma put_list_rest_bad {A} (f : A -> Stmt unit) (l : list A) :
  (forall x, In x l -> row_stmt (f x)) ->
  Exists (fun x => forall s, f x s = (Thrown RowArityMismatch, s)) l ->
  forall s, fst (put_list_rest f l s) = Thrown RowArityMismatch.
Proof.
  induction l as [|x l IH]; intros Hf Hbad s.
  - inversion Hbad.
  - cbn [put_list_rest].
    rewrite (bind_done _ _ _ _ _ (put_run _ _)).
    destruct (Hf x (or_introl eq_refl) (emit s ",")) as [(s1 & H1 & _) | H1].
    + rewrite (bind_done _ _ _ _ _ H1).
      apply IH; [intros y Hy; apply Hf; now right|].
      inversion Hbad as [? ? Hx | ? ? Hl]; subst; [|exact Hl].
      rewrite Hx in H1. discriminate.
    + now rewrite (bind_thrown _ _ _ _ _ H1).
Qed.

(** A list of row statements one of which always throws, throws. *)
Lemma put_list_bad {A} (f : A -> Stmt unit) (l : list A) :
  (forall x, In x l -> row_stmt (f x)) ->
  Exists (fun x => forall s, f x s = (Thrown RowArityMismatch, s)) l ->
  forall s, fst (put_list l f s) = Thrown RowArityMismatch.
Proof.
  intros Hf Hbad s. destruct l as [|x l]; [inversion Hbad|].
  cbn [put_list].
  destruct (Hf x (or_introl eq_refl) s) as [(s1 & H1 & _) | H1].
  - rewrite (bind_done _ _ _ _ _ H1).
    apply put_list_rest_bad; [intros y Hy; apply Hf; now right|].
    inversion Hbad as [? ? Hx | ? ? Hl]; subst; [|exact Hl].
    rewrite Hx in H1. discriminate.
  - now rewrite (bind_thrown _ _ _ _ _ H1).
Qed.

(** ** Rows *)

(** Runs the statements at the head of the goal one after the other. *)
Ltac run :=
  unfold bind, ret, throw, put_quote, put_identifier, put_expr,
    put_expr_scalar, put_expr_object;
  repeat (first [rewrite put_run | rewrite generate_id_run]; cbv beta iota);
  rewrite ?minted_emit, ?minted_id_emit, ?emit_emit.

Lemma arity_check_false (n : nat) (row : Field_list) :
  row <> [] -> (n <> 0%nat -> length row = n) ->
  ((Z.of_nat (length row) =? 0)%Z
   || (negb (Z.of_nat n =? 0)%Z && negb (Z.of_nat (length row) =? Z.of_nat n)%Z))
  = false.
Proof.
  intros Hne Hlen.
  assert (length row <> 0%nat) by (destruct row; [congruence | discriminate]).
  destruct (Z.eqb_spec (Z.of_nat (length row)) 0); [lia|].
  destruct (Z.eqb_spec (Z.of_nat n) 0); [reflexivity|].
  destruct (Z.eqb_spec (Z.of_nat (length row)) (Z.of_nat n)); [reflexivity|].
  exfalso. apply n2. f_equal. apply Hlen. lia.
Qed.

Lemma arity_check_true (n : nat) (row : Field_list) :
  row = [] \/ (n <> 0%nat /\ length row <> n) ->
  ((Z.of_nat (length row) =? 0)%Z
   || (negb (Z.of_nat n =? 0)%Z && negb (Z.of_nat (length row) =? Z.of_nat n)%Z))
  = true.
Proof.
  intros [-> | [Hn Hlen]]; [reflexivity|].
  destruct (Z.eqb_spec (Z.of_nat (length row)) 0); [reflexivity|].
  destruct (Z.eqb_spec (Z.of_nat n) 0); [lia|].
  destruct (Z.eqb_spec (Z.of_nat (length row)) (Z.of_nat n)); [lia | reflexivity].
Qed.

Lemma add_row_ok (n : nat) (r : Field_list) s :
  r <> [] -> (n <> 0%nat -> length r = n) ->
  add_row args r (Z.of_nat n) s
  = (Done tt, emit s ("(" ++ String.concat "," (map (gen_expr args) r) ++ ")")).
Proof.
  intros Hne Hlen. unfold add_row.
  rewrite (arity_check_false n r Hne Hlen).
  unfold bind at 1, ret at 1. cbv beta iota.
  rewrite (bind_done _ _ _ _ _ (put_run _ _)).
  rewrite (bind_done _ _ _ _ _
             (put_list_puts (put_expr args) (gen_expr args) r
                            (fun x _ s => eq_refl) _)).
  rewrite put_run. now rewrite !emit_emit.
Qed.

Lemma add_row_bad (n : nat) (r : Field_list) s :
  r = [] \/ (n <> 0%nat /\ length r <> n) ->
  add_row args r (Z.of_nat n) s = (Thrown RowArityMismatch, s).
Proof.
  intros Hbad. unfold add_row.
  now rewrite (arity_check_true n r Hbad).
Qed.

Lemma add_row_stmt (n : nat) (r : Field_list) :
  row_stmt (add_row args r (Z.of_nat n)).
Proof.
  intros s.
  destruct r as [|e r].
  - right. apply add_row_bad. now left.
  - destruct (Nat.eq_dec n 0) as [-> | Hn].
    + left. eexists. split; [apply (add_row_ok 0); [discriminate | congruence]|].
      apply extends_emit.
    + destruct (Nat.eq_dec (length (e :: r)) n) as [Hl | Hl].
      * left. eexists. split; [apply (add_row_ok n); [discriminate | auto]|].
        apply extends_emit.
      * right. apply add_row_bad. now right.
Qed.

(** ** Document rows *)

Lemma add_document_literal_run (a : Scalar) s :
  add_document_literal args a s
  = match literal_value a with
    | Generic => (Done false, s)
    | _ => (Done true, rendered args (LITERAL a) s)
    end.
Proof.
  unfold rendered, document_value, literal_value, accepted_literal.
  destruct a as [ | | |value ct| | | |value coll]; try reflexivity.
  - unfold add_document_literal.
    destruct (N.eqb ct CT_PLAIN), (N.eqb ct CT_JSON); cbn [negb andb orb];
      try reflexivity;
      cbn [contains_id kept_text set_text];
      destruct (is_id_in_json value); run; reflexivity.
  - unfold add_document_literal.
    cbn [contains_id kept_text set_text].
    destruct (is_id_in_json value); run; reflexivity.
Qed.

Lemma resolved_placeholder (p : Placeholder) :
  (p <? N.of_nat (length args))%N = true <-> nth_error args (N.to_nat p) <> None.
Proof.
  rewrite N.ltb_lt, nth_error_Some. lia.
Qed.

Lemma add_document_placeholder_run (p : Placeholder) s :
  add_document_placeholder args p s
  = match document_value args (PLACEHOLDER p) with
    | Generic => (Done false, s)
    | _ => (Done true, rendered args (PLACEHOLDER p) s)
    end.
Proof.
  unfold add_document_placeholder, rendered, document_value.
  destruct (nth_error args (N.to_nat p)) as [a|] eqn:Ha.
  - assert (Hp : (p <? N.of_nat (length args))%N = true)
      by (apply resolved_placeholder; congruence).
    rewrite Hp, add_document_literal_run.
    unfold rendered, document_value.
    destruct (literal_value a); reflexivity.
  - destruct (p <? N.of_nat (length args))%N; reflexivity.
Qed.

Lemma add_document_object_run (o : Object) s :
  add_document_object args o s = (Done tt, rendered args (OBJECT o) s).
Proof.
  unfold add_document_object, rendered, document_value.
  cbn [contains_id kept_text set_text].
  destruct (is_id_in_object o); run; reflexivity.
Qed.

(** A row of one field is always rendered, in one of three ways. *)
Lemma add_document_run (doc : Expr) s :
  add_document args [doc] s = (Done tt, rendered args doc s).
Proof.
  unfold add_document.
  destruct doc as [i|a|v|f ps|o ps|p|o|vs];
    try (unfold rendered, document_value; run; reflexivity).
  - unfold bind at 1. rewrite add_document_literal_run.
    unfold rendered, document_value.
    destruct (literal_value a); try reflexivity.
    run; reflexivity.
  - unfold bind at 1. rewrite add_document_placeholder_run.
    unfold rendered.
    destruct (document_value args (PLACEHOLDER p)); try reflexivity.
    run; reflexivity.
  - unfold bind at 1, bind at 1. rewrite add_document_object_run.
    reflexivity.
Qed.

Lemma add_document_bad (r : Field_list) s :
  length r <> 1%nat ->
  add_document args r s = (Thrown RowArityMismatch, s).
Proof.
  destruct r as [|doc [|doc' r]]; intros H; try reflexivity.
  now contradiction H.
Qed.

Lemma extends_rendered (doc : Expr) s : extends s (rendered args doc s).
Proof.
  unfold rendered.
  destruct (document_value args doc); try apply extends_emit;
    destruct (contains_id _); try apply extends_emit;
    (eapply extends_trans; [apply extends_minted | apply extends_emit]).
Qed.

Lemma add_document_stmt (r : Field_list) : row_stmt (add_document args r).
Proof.
  intros s. destruct r as [|doc [|doc' r]].
  - right. now apply add_document_bad.
  - left. eexists. split; [apply add_document_run | apply extends_rendered].
  - right. now apply add_document_bad.
Qed.

(** ** Stages of a build *)

Lemma add_projection_run (msg : Insert) s :
  add_projection (projection msg) (is_table_data_model msg) s
  = match data_model msg, projection msg with
    | DOCUMENT, _ :: _ => (Thrown BadProjection, s)
    | _, _ => (Done tt, emit s (column_list msg))
    end.
Proof.
  unfold add_projection, is_table_data_model, column_list.
  destruct (data_model msg), (projection msg) as [|c p]; cbn [length negb Z.of_nat Z.eqb].
  - run. reflexivity.
  - reflexivity.
  - unfold ret. now rewrite emit_empty.
  - change (negb (Z.of_nat (length (c :: p)) =? 0)%Z) with true. cbv iota.
    rewrite (bind_done _ _ _ _ _ (put_run _ _)).
    rewrite (bind_done _ _ _ _ _
               (put_list_puts (fun c => put_identifier (name c))
                              (fun c => quote_identifier (name c)) (c :: p)
                              (fun x _ s => eq_refl) _)).
    rewrite put_run. now rewrite !emit_emit.
Qed.

Lemma missing_check {A} (l : list A) :
  (Z.of_nat (length l) =? 0)%Z = match l with [] => true | _ => false end.
Proof. destruct l; reflexivity. Qed.

Lemma add_values_run (values : Row_list) (n : nat) s :
  add_values args values (Z.of_nat n) s
  = match values with
    | [] => (Thrown MissingRows, s)
    | _ => put_list values (fun r => add_row args (field r) (Z.of_nat n))
                    (emit s " VALUES ")
    end.
Proof.
  unfold add_values. rewrite missing_check.
  destruct values; reflexivity.
Qed.

Lemma add_documents_run (values : Row_list) s :
  add_documents args values s
  = match values with
    | [] => (Thrown MissingRows, s)
    | _ => put_list values (fun r => add_document args (field r))
                    (emit s " VALUES ")
    end.
Proof.
  unfold add_documents. rewrite missing_check.
  destruct values; reflexivity.
Qed.

Lemma add_upsert_run (is_relational : bool) s :
  add_upsert is_relational s
  = if is_relational then (Thrown UpsertNotSupported, s)
    else (Done tt, emit s upsert_clause).
Proof. destruct is_relational; reflexivity. Qed.

(** A build is its head, then the three stages. *)
Lemma build_stages (msg : Insert) s :
  build args msg s
  = bind (add_projection (projection msg) (is_table_data_model msg))
      (fun _ => bind (add_rows args msg)
         (fun _ => if upsert msg then add_upsert (is_table_data_model msg)
                   else ret tt))
      (emit s (header msg)).
Proof.
  unfold build, add_collection, header.
  rewrite (bind_done _ _ _ _ _ (put_run _ _)).
  rewrite (bind_done _ _ _ _ _ (put_run _ _)).
  now rewrite emit_emit.
Qed.

Lemma add_values_ok (values : Row_list) (n : nat) s :
  values <> [] ->
  (forall r, In r values -> row_arity_ok n r) ->
  add_values args values (Z.of_nat n) s
  = (Done tt, emit s (" VALUES " ++ String.concat "," (map (row_text args) values))).
Proof.
  intros Hne Hok. rewrite add_values_run.
  destruct values as [|r0 values]; [congruence|].
  rewrite (put_list_puts _ (row_text args)).
  - now rewrite emit_emit.
  - intros r Hr s1. destruct (Hok r Hr) as [H1 H2].
    now apply add_row_ok.
Qed.

(** A relational request whose rows pass the check is rendered in full;
    only the upsert flag can still make the build fail. *)
Lemma build_table_ok (msg : Insert) s :
  data_model msg = TABLE ->
  row msg <> [] ->
  (forall r, In r (row msg) -> row_arity_ok (length (projection msg)) r) ->
  build args msg s
  = (if upsert msg then Thrown UpsertNotSupported else Done tt,
     emit s (header msg ++ column_list msg ++ " VALUES "
             ++ String.concat "," (map (row_text args) (row msg)))).
Proof.
  intros Hdm Hne Hok. rewrite build_stages.
  unfold bind at 1. rewrite add_projection_run. rewrite Hdm. cbv iota.
  unfold bind at 1, add_rows, is_table_data_model. rewrite Hdm.
  rewrite (add_values_ok _ _ _ Hne Hok).
  rewrite !emit_emit.
  destruct (upsert msg); reflexivity.
Qed.

Lemma extends_emit_inv s a s' :
  extends (emit s a) s' -> exists rest, m_builder s' = m_builder s ++ a ++ rest.
Proof.
  intros [rest H]. exists rest. rewrite H. simpl. apply append_assoc.
Qed.

(** The values stage throws for want of rows, or runs the rows. *)
Lemma add_rows_outcome (msg : Insert) s :
  match row msg with
  | [] => add_rows args msg s = (Thrown MissingRows, s)
  | _ =>
      exists s', extends (emit s " VALUES ") s'
                 /\ (add_rows args msg s = (Done tt, s')
                     \/ add_rows args msg s = (Thrown RowArityMismatch, s'))
  end.
Proof.
  unfold add_rows. destruct (is_table_data_model msg).
  - rewrite add_values_run. destruct (row msg) as [|r0 rows] eqn:Hrow; [reflexivity|].
    destruct (put_list_rows (fun r => add_row args (field r)
                                        (Z.of_nat (length (projection msg))))
                (r0 :: rows) (fun r _ => add_row_stmt _ (field r))
                (emit s " VALUES ")) as [(s' & H & E) | (s' & H & E)];
      exists s'; (split; [exact E|]); [now left | now right].
  - rewrite add_documents_run. destruct (row msg) as [|r0 rows] eqn:Hrow; [reflexivity|].
    destruct (put_list_rows (fun r => add_document args (field r))
                (r0 :: rows) (fun r _ => add_document_stmt (field r))
                (emit s " VALUES ")) as [(s' & H & E) | (s' & H & E)];
      exists s'; (split; [exact E|]); [now left | now right].
Qed.

(** What is left of a build after the column list only appends. *)
Lemma build_tail_extends (msg : Insert) s :
  extends s
    (snd (bind (add_rows args msg)
            (fun _ => if upsert msg then add_upsert (is_table_data_model msg)
                      else ret tt) s)).
Proof.
  unfold bind at 1.
  pose proof (add_rows_outcome msg s) as H.
  destruct (row msg).
  - rewrite H. apply extends_refl.
  - destruct H as (s' & E & [H | H]); rewrite H; cbn [snd].
    + assert (E' : extends s s')
        by (eapply extends_trans; [apply extends_emit | exact E]).
      destruct (upsert msg); [|exact E'].
      rewrite add_upsert_run.
      destruct (is_table_data_model msg); [exact E'|].
      eapply extends_trans; [exact E' | apply extends_emit].
    + eapply extends_trans; [apply extends_emit | exact E].
Qed.

Lemma bind_fst_thrown {A B} (c : Stmt A) (k : A -> Stmt B) s e :
  fst (c s) = Thrown e -> fst (bind c k s) = Thrown e.
Proof.
  unfold bind. destruct (c s) as [[a|e'] s']; simpl; intros H;
    [discriminate | now inversion H].
Qed.

(** The projection stage passes unless the request is a document one
    with a projection. *)
Lemma add_projection_done (msg : Insert) s :
  data_model msg = TABLE \/ projection msg = [] ->
  add_projection (projection msg) (is_table_data_model msg) s
  = (Done tt, emit s (column_list msg)).
Proof.
  intros H. rewrite add_projection_run.
  destruct (data_model msg), (projection msg); try reflexivity.
  destruct H; discriminate.
Qed.

(** A document request without projection one of whose rows has not
    exactly one field fails with the arity error. *)
Lemma build_document_bad_row (msg : Insert) s :
  data_model msg = DOCUMENT ->
  projection msg = [] ->
  Exists (fun r => length (field r) <> 1%nat) (row msg) ->
  fst (build args msg s) = Thrown RowArityMismatch.
Proof.
  intros Hdm Hp Hbad. rewrite build_stages.
  rewrite (bind_done _ _ _ _ _ (add_projection_done msg _ (or_intror Hp))).
  apply bind_fst_thrown.
  unfold add_rows, is_table_data_model. rewrite Hdm, add_documents_run.
  destruct (row msg) as [|r0 rows]; [inversion Hbad|].
  apply put_list_bad.
  - intros r _. apply add_document_stmt.
  - revert Hbad. apply Exists_impl. intros r Hr s1.
    now apply add_document_bad.
Qed.

Lemma build_bad_projection (msg : Insert) s :
  data_model msg = DOCUMENT ->
  projection msg <> [] ->
  build args msg s = (Thrown BadProjection, emit s (header msg)).
Proof.
  intros Hdm Hp. rewrite build_stages.
  apply bind_thrown. rewrite add_projection_run, Hdm.
  destruct (projection msg); [congruence | reflexivity].
Qed.

(** ** The claims *)

(** C5. A document request with a projection fails with BadProjection;
    one without renders [ (doc)] as its column list, right after the
    collection. *)
Theorem document_projection (msg : Insert) s :
  data_model msg = DOCUMENT ->
  (projection msg <> [] -> fst (build args msg s) = Thrown BadProjection)
  /\ (projection msg = [] ->
      exists rest,
        m_builder (snd (build args msg s))
        = m_builder s ++ "INSERT INTO " ++ gen_collection (collection msg)
          ++ " (doc)" ++ rest).
Proof.
  intros Hdm. split; intros Hp; rewrite build_stages.
  - apply bind_fst_thrown. rewrite add_projection_run, Hdm.
    destruct (projection msg); [congruence | reflexivity].
  - rewrite (bind_done _ _ _ _ _ (add_projection_done msg _ (or_intror Hp))).
    unfold column_list. rewrite Hdm.
    destruct (build_tail_extends msg (emit (emit s (header msg)) " (doc)")) as [r Hr].
    exists r. rewrite Hr. unfold header. simpl. now rewrite !append_assoc.
Qed.

(** C7, amended. A request without rows fails with MissingRows, unless it
    is a document request with a projection, which has failed before.
    A relational request fails with RowArityMismatch when one of its rows
    is empty or, a projection being given, has not as many fields as it;
    a document request without projection fails with RowArityMismatch
    when one of its rows has not exactly one field. *)
Theorem row_validation (msg : Insert) s :
  (row msg = [] ->
   data_model msg = TABLE \/ projection msg = [] ->
   fst (build args msg s) = Thrown MissingRows)
  /\ (data_model msg = TABLE ->
      Exists (fun r => field r = []
                       \/ (projection msg <> []
                           /\ length (field r) <> length (projection msg)))
             (row msg) ->
      fst (build args msg s) = Thrown RowArityMismatch)
  /\ (data_model msg = DOCUMENT ->
      projection msg = [] ->
      Exists (fun r => length (field r) <> 1%nat) (row msg) ->
      fst (build args msg s) = Thrown RowArityMismatch).
Proof.
  split; [|split].
  - intros Hrow Hp. rewrite build_stages.
    rewrite (bind_done _ _ _ _ _ (add_projection_done msg _ Hp)).
    apply bind_fst_thrown.
    pose proof (add_rows_outcome msg (emit (emit s (header msg)) (column_list msg))) as H.
    rewrite Hrow in H. now rewrite H.
  - intros Hdm Hbad. rewrite build_stages.
    rewrite (bind_done _ _ _ _ _ (add_projection_done msg _ (or_introl Hdm))).
    apply bind_fst_thrown.
    unfold add_rows, is_table_data_model. rewrite Hdm, add_values_run.
    destruct (row msg) as [|r0 rows]; [inversion Hbad|].
    apply put_list_bad.
    + intros r _. apply add_row_stmt.
    + revert Hbad. apply Exists_impl. intros r Hr s1.
      apply add_row_bad. destruct Hr as [Hr | [Hp Hr]]; [now left | right].
      split; [|exact Hr]. destruct (projection msg); [congruence | discriminate].
  - apply build_document_bad_row.
Qed.

(** C8, amended. A relational request without upsert, with a projection
    and with rows that each have as many fields as the projection, builds
    the statement [INSERT INTO], collection, parenthesized comma-joined
    quoted columns, [VALUES], comma-joined parenthesized rows of
    comma-joined fields; the aggregator is left alone. *)
Theorem relational_statement (msg : Insert) s :
  data_model msg = TABLE ->
  projection msg <> [] ->
  row msg <> [] ->
  (forall r, In r (row msg) -> length (field r) = length (projection msg)) ->
  upsert msg = false ->
  build args msg s
  = (Done tt,
     emit s ("INSERT INTO " ++ gen_collection (collection msg)
             ++ " (" ++ String.concat ","
                          (map (fun c => quote_identifier (name c)) (projection msg))
             ++ ")" ++ " VALUES "
             ++ String.concat ","
                  (map (fun r => "(" ++ String.concat ","
                                          (map (gen_expr args) (field r)) ++ ")")
                       (row msg)))).
Proof.
  intros Hdm Hp Hrow Hlen Hup.
  rewrite (build_table_ok msg s Hdm Hrow).
  - rewrite Hup. unfold header, column_list. rewrite Hdm.
    destruct (projection msg) as [|c p] eqn:E; [congruence|].
    f_equal. f_equal. now rewrite !append_assoc.
  - intros r Hr. split; [|intros _; now apply Hlen].
    intros Hnil. specialize (Hlen r Hr). rewrite Hnil in Hlen.
    destruct (projection msg); [congruence | discriminate].
Qed.

(** C10, amended. A relational request without upsert and without
    projection, whose rows are each non-empty, builds its statement
    whatever the field counts of its rows: no row is compared with
    another. *)
Theorem relational_rows_unconstrained (msg : Insert) s :
  data_model msg = TABLE ->
  projection msg = [] ->
  row msg <> [] ->
  (forall r, In r (row msg) -> field r <> []) ->
  upsert msg = false ->
  build args msg s
  = (Done tt,
     emit s ("INSERT INTO " ++ gen_collection (collection msg) ++ " VALUES "
             ++ String.concat ","
                  (map (fun r => "(" ++ String.concat ","
                                          (map (gen_expr args) (field r)) ++ ")")
                       (row msg)))).
Proof.
  intros Hdm Hp Hrow Hne Hup.
  rewrite (build_table_ok msg s Hdm Hrow).
  - rewrite Hup. unfold header, column_list. rewrite Hdm, Hp.
    reflexivity.
  - intros r Hr. split; [now apply Hne|].
    rewrite Hp. intros H. now contradiction H.
Qed.

(** C6, amended. Take a request with upsert set.  When it builds with the
    flag cleared, a relational request fails with UpsertNotSupported and
    a document request gets the fixed conflict clause appended once, after
    all the rest of the statement.  When it does not, the build fails
    with the same, earlier, error. *)
Theorem upsert_stage (msg : Insert) s :
  upsert msg = true ->
  match build args (without_upsert msg) s with
  | (Done _, s0) =>
      build args msg s
      = match data_model msg with
        | TABLE => (Thrown UpsertNotSupported, s0)
        | DOCUMENT => (Done tt, emit s0 upsert_clause)
        end
  | (Thrown e, s0) => build args msg s = (Thrown e, s0)
  end.
Proof.
  intros Hup. rewrite !build_stages. rewrite Hup.
  change (upsert (without_upsert msg)) with false. cbv iota.
  change (header (without_upsert msg)) with (header msg).
  change (projection (without_upsert msg)) with (projection msg).
  change (is_table_data_model (without_upsert msg)) with (is_table_data_model msg).
  change (add_rows args (without_upsert msg)) with (add_rows args msg).
  unfold bind.
  destruct (add_projection _ _ _) as [[[]|e1] s1]; [|reflexivity].
  destruct (add_rows args msg s1) as [[[]|e2] s2]; [|reflexivity].
  unfold ret. rewrite add_upsert_run. unfold is_table_data_model.
  destruct (data_model msg); reflexivity.
Qed.

(** C3, amended. A document row whose value is an accepted literal, given inline
    or through a placeholder that resolves to it, or an object, and has no
    top-level [_id], is rendered with one call of the id generator: the
    generator moves by one step, the id it returned is appended to the
    generated ids and the row is [(JSON_SET(], the quoted literal or the
    rendered object, [, '$._id', ], the quoted id, [))]. *)
Theorem synthesis_of_missing_id (doc : Expr) s :
  document_value args doc <> Generic ->
  contains_id (document_value args doc) = false ->
  exists id g,
    generate (m_variables (m_document_id_aggregator s))
             (m_base_id_generator (m_document_id_aggregator s)) = (id, g)
    /\ add_document args [doc] s
       = (Done tt,
          {| m_builder :=
               m_builder s ++ "(JSON_SET(" ++ set_text args (document_value args doc)
               ++ ", '$._id', " ++ quote_string id ++ "))";
             m_document_id_aggregator :=
               {| m_base_id_generator := g;
                  m_variables := m_variables (m_document_id_aggregator s);
                  m_document_ids :=
                    m_document_ids (m_document_id_aggregator s) ++ [id] |} |}).
Proof.
  intros Hv Hid. rewrite add_document_run. unfold rendered.
  destruct (document_value args doc) eqn:E; [| |congruence];
    rewrite Hid; unfold emit, minted, minted_id;
    destruct (generate _ _) as [id g]; exists id, g; split; reflexivity.
Qed.

(** C4, amended. A document row whose value is an accepted literal or an
    object and has a top-level [_id] is rendered as it is, between
    parentheses: octets quoted, a string or an object as the expression
    generator renders it; the aggregator is left alone, so the id
    generator is not called and no id is recorded. *)
Theorem present_id_kept (doc : Expr) s :
  document_value args doc <> Generic ->
  contains_id (document_value args doc) = true ->
  add_document args [doc] s
  = (Done tt,
     {| m_builder := m_builder s ++ "(" ++ kept_text args (document_value args doc) ++ ")";
        m_document_id_aggregator := m_document_id_aggregator s |}).
Proof.
  intros Hv Hid. rewrite add_document_run. unfold rendered.
  destruct (document_value args doc) eqn:E; [| |congruence];
    rewrite Hid; reflexivity.
Qed.

(** Each call of [configue] runs one query, the one that reads the
    three session variables.  If the query returns a number of rows
    other than one, [configue] returns the internal error and leaves the
    aggregator as it was.  In every case the generator and the generated
    ids are left alone. *)
Lemma configue_query (data_context : Sql_session) (agg : Document_id_aggregator) :
  executed (snd (configue data_context agg))
  = (executed data_context ++ [configue_sql])%list
  /\ m_document_ids (snd (fst (configue data_context agg))) = m_document_ids agg
  /\ m_base_id_generator (snd (fst (configue data_context agg)))
     = m_base_id_generator agg
  /\ (forall result,
        answer data_context configue_sql = Done result ->
        length result <> 1%nat ->
        fst (fst (configue data_context agg)) = Some ConfigFetchFailed
        /\ snd (fst (configue data_context agg)) = agg).
Proof.
  unfold configue, query.
  destruct (answer data_context configue_sql) as [result | e] eqn:Ha.
  - destruct (Z.eqb_spec (Z.of_nat (length result)) 1) as [H1 | H1]; cbn [negb].
    + destruct result as [|[[p o] i] result]; simpl;
        (split; [reflexivity | split; [reflexivity | split; [reflexivity|]]]);
        intros result' [= <-] Hl; simpl in *; lia.
    + simpl. split; [reflexivity | split; [reflexivity | split; [reflexivity|]]].
      intros _ _ _. now split.
  - simpl. split; [reflexivity | split; [reflexivity | split; [reflexivity|]]].
    intros; discriminate.
Qed.

(** * Further properties of the builder *)

(** ** Relations a build keeps *)

Section Preserving.

Variable R : Builder_state -> Builder_state -> Prop.
Hypothesis R_refl : forall s, R s s.
Hypothesis R_trans : forall s1 s2 s3, R s1 s2 -> R s2 s3 -> R s1 s3.
Hypothesis R_emit : forall s text, R s (emit s text).

Lemma preserves_ret {A} (a : A) : preserves R (ret a).
Proof. intros s. apply R_refl. Qed.

Lemma preserves_throw {A} (e : Error_code) : preserves R (@throw _ A e).
Proof. intros s. apply R_refl. Qed.

Lemma preserves_put (text : string) : preserves R (put text).
Proof. intros s. apply R_emit. Qed.

Lemma preserves_bind {A B} (c : Stmt A) (k : A -> Stmt B) :
  preserves R c -> (forall a, preserves R (k a)) -> preserves R (bind c k).
Proof.
  intros Hc Hk s. unfold bind.
  specialize (Hc s). destruct (c s) as [[a|e] s1]; cbn [snd] in *.
  - eapply R_trans; [exact Hc | apply Hk].
  - exact Hc.
Qed.

Lemma preserves_put_list_rest {A} (f : A -> Stmt unit) (l : list A) :
  (forall x, preserves R (f x)) -> preserves R (put_list_rest f l).
Proof.
  intros Hf. induction l as [|x l IH]; cbn [put_list_rest].
  - apply preserves_ret.
  - apply preserves_bind; [apply preserves_put | intros _].
    apply preserves_bind; [apply Hf | intros _; exact IH].
Qed.

Lemma preserves_put_list {A} (l : list A) (f : A -> Stmt unit) :
  (forall x, preserves R (f x)) -> preserves R (put_list l f).
Proof.
  intros Hf. destruct l as [|x l]; cbn [put_list].
  - apply preserves_ret.
  - apply preserves_bind; [apply Hf | intros _; now apply preserves_put_list_rest].
Qed.

(** Splits a statement into its parts. *)
Ltac preserving :=
  cbv beta zeta;
  lazymatch goal with
  | |- preserves _ (bind _ _) =>
      apply preserves_bind; [preserving | intros ?; preserving]
  | |- preserves _ (ret _) => apply preserves_ret
  | |- preserves _ (throw _) => apply preserves_throw
  | |- preserves _ (put _) => apply preserves_put
  | |- preserves _ (put_list _ _) =>
      apply preserves_put_list; intros ?; preserving
  | |- preserves _ (if ?c then _ else _) => destruct c; preserving
  | |- preserves _ (match ?x with _ => _ end) => destruct x; preserving
  | _ => idtac
  end.

Lemma preserves_add_projection (p : Projection_list) (is_relational : bool) :
  preserves R (add_projection p is_relational).
Proof.
  unfold add_projection, put_identifier. preserving.
Qed.

Lemma preserves_add_values (values : Row_list) (n : Z) :
  preserves R (add_values args values n).
Proof.
  unfold add_values, add_row, put_expr. preserving.
Qed.

Lemma preserves_add_upsert (is_relational : bool) :
  preserves R (add_upsert is_relational).
Proof.
  unfold add_upsert. preserving.
Qed.

(** A relational build is made of appends alone. *)
Lemma preserves_table_build (msg : Insert) :
  data_model msg = TABLE -> preserves R (build args msg).
Proof.
  intros Hdm. unfold build, is_table_data_model, add_collection.
  rewrite Hdm. cbv iota.
  apply preserves_bind; [apply preserves_put | intros _].
  apply preserves_bind; [apply preserves_put | intros _].
  apply preserves_bind; [apply preserves_add_projection | intros _].
  apply preserves_bind; [apply preserves_add_values | intros _].
  destruct (upsert msg); [apply preserves_add_upsert | apply preserves_ret].
Qed.

Hypothesis R_minted : forall s, R s (minted s).

Lemma preserves_generate_id : preserves R generate_id.
Proof. intros s. rewrite generate_id_run. apply R_minted. Qed.

Lemma preserves_add_document (r : Field_list) :
  preserves R (add_document args r).
Proof.
  intros s. destruct (add_document_stmt r s) as [(s' & H & _) | H].
  - destruct r as [|doc [|doc' r]]; try (rewrite add_document_bad; [apply R_refl | discriminate]).
    rewrite add_document_run. unfold rendered. cbn [snd].
    destruct (document_value args doc); try apply R_emit;
      destruct (contains_id _); try apply R_emit;
      (eapply R_trans; [apply R_minted | apply R_emit]).
  - rewrite H. apply R_refl.
Qed.

Lemma preserves_add_documents (values : Row_list) :
  preserves R (add_documents args values).
Proof.
  unfold add_documents.
  apply preserves_bind; [destruct (_ =? _)%Z; [apply preserves_throw | apply preserves_ret] | intros _].
  apply preserves_bind; [apply preserves_put | intros _].
  apply preserves_put_list. intros r. apply preserves_add_document.
Qed.

(** Every build is made of appends and calls of [generate_id]. *)
Lemma preserves_build (msg : Insert) : preserves R (build args msg).
Proof.
  unfold build, add_collection.
  apply preserves_bind; [apply preserves_put | intros _].
  apply preserves_bind; [apply preserves_put | intros _].
  apply preserves_bind; [apply preserves_add_projection | intros _].
  apply preserves_bind.
  - destruct (is_table_data_model msg);
      [apply preserves_add_values | apply preserves_add_documents].
  - intros _.
    destruct (upsert msg); [apply preserves_add_upsert | apply preserves_ret].
Qed.

End Preserving.

Lemma ids_grow_refl s : ids_grow s s.
Proof.
  split; [reflexivity | exists []; now rewrite app_nil_r].
Qed.

Lemma ids_grow_trans s1 s2 s3 : ids_grow s1 s2 -> ids_grow s2 s3 -> ids_grow s1 s3.
Proof.
  intros [V1 [n1 H1]] [V2 [n2 H2]]. split; [congruence|].
  exists (n1 ++ n2)%list. now rewrite H2, H1, app_assoc.
Qed.

Lemma ids_grow_emit s text : ids_grow s (emit s text).
Proof. exact (ids_grow_refl s). Qed.

Lemma ids_grow_minted s : ids_grow s (minted s).
Proof. split; [reflexivity | now exists [minted_id s]]. Qed.

(** X1. Whatever the request and however the build ends, the ids
    generated before it are still there, in the same order, with the new
    ones after them, and the variables of the aggregator are untouched. *)
Theorem build_ids_append_only (msg : Insert) s :
  m_variables (m_document_id_aggregator (snd (build args msg s)))
  = m_variables (m_document_id_aggregator s)
  /\ exists new,
       generated_ids (snd (build args msg s)) = (generated_ids s ++ new)%list.
Proof.
  exact (preserves_build ids_grow ids_grow_refl ids_grow_trans ids_grow_emit
           ids_grow_minted msg s).
Qed.

(** X2. A relational build, whether it returns or throws, leaves the
    aggregator as it was: it calls the id generator for no row and
    records no id. *)
Theorem table_build_keeps_aggregator (msg : Insert) s :
  data_model msg = TABLE ->
  m_document_id_aggregator (snd (build args msg s)) = m_document_id_aggregator s.
Proof.
  intros Hdm.
  apply (preserves_table_build same_aggregator); try exact Hdm;
    unfold same_aggregator; intros; try reflexivity; congruence.
Qed.

(** ** A build only appends *)

Lemma appends_ret {A} (a : A) : appends (ret a).
Proof.
  intros agg. exists (Done a), EmptyString, agg. intros b.
  unfold ret. now rewrite append_empty_r.
Qed.

Lemma appends_throw {A} (e : Error_code) : appends (@throw _ A e).
Proof.
  intros agg. exists (Thrown e), EmptyString, agg. intros b.
  unfold throw. now rewrite append_empty_r.
Qed.

Lemma appends_put (text : string) : appends (put text).
Proof.
  intros agg. exists (Done tt), text, agg. intros b. reflexivity.
Qed.

Lemma appends_generate_id : appends generate_id.
Proof.
  intros agg.
  exists (Done (minted_id (with_buffer EmptyString agg))), EmptyString,
         (m_document_id_aggregator (minted (with_buffer EmptyString agg))).
  intros b. rewrite generate_id_run, append_empty_r. reflexivity.
Qed.

Lemma appends_bind {A B} (c : Stmt A) (k : A -> Stmt B) :
  appends c -> (forall a, appends (k a)) -> appends (bind c k).
Proof.
  intros Hc Hk agg.
  destruct (Hc agg) as (o & t & agg1 & H1).
  destruct o as [a|e].
  - destruct (Hk a agg1) as (o2 & t2 & agg2 & H2).
    exists o2, (t ++ t2), agg2. intros b.
    unfold bind. now rewrite H1, H2, append_assoc.
  - exists (Thrown e), t, agg1. intros b.
    unfold bind. now rewrite H1.
Qed.

Lemma appends_put_list_rest {A} (f : A -> Stmt unit) (l : list A) :
  (forall x, appends (f x)) -> appends (put_list_rest f l).
Proof.
  intros Hf. induction l as [|x l IH]; cbn [put_list_rest].
  - apply appends_ret.
  - apply appends_bind; [apply appends_put | intros _].
    apply appends_bind; [apply Hf | intros _; exact IH].
Qed.

Lemma appends_put_list {A} (l : list A) (f : A -> Stmt unit) :
  (forall x, appends (f x)) -> appends (put_list l f).
Proof.
  intros Hf. destruct l as [|x l]; cbn [put_list].
  - apply appends_ret.
  - apply appends_bind; [apply Hf | intros _; now apply appends_put_list_rest].
Qed.

(** Splits a statement into its parts. *)
Ltac appending :=
  cbv beta zeta;
  lazymatch goal with
  | |- appends (bind _ _) =>
      apply appends_bind; [appending | intros ?; appending]
  | |- appends (ret _) => apply appends_ret
  | |- appends (throw _) => apply appends_throw
  | |- appends (put _) => apply appends_put
  | |- appends generate_id => apply appends_generate_id
  | |- appends (put_list _ _) =>
      apply appends_put_list; intros ?; appending
  | |- appends (if ?c then _ else _) => destruct c; appending
  | |- appends (match ?x with _ => _ end) => destruct x; appending
  | _ => idtac
  end.

Lemma appends_add_document_literal (a : Scalar) :
  appends (add_document_literal args a).
Proof.
  unfold add_document_literal, put_quote, put_expr_scalar. appending.
Qed.

Lemma appends_add_document (r : Field_list) : appends (add_document args r).
Proof.
  unfold add_document, add_document_placeholder, add_document_object,
    put_quote, put_expr, put_expr_object.
  appending; apply appends_add_document_literal.
Qed.

(** X3. A build only appends to the query string: its outcome, the text
    it appends and the aggregator it leaves are the same whatever the
    buffer held before, and what the buffer held is kept in front. *)
Theorem build_appends_only (msg : Insert) (agg : Document_id_aggregator) :
  exists o text agg',
    forall b, build args msg (with_buffer b agg)
              = (o, with_buffer (b ++ text) agg').
Proof.
  revert agg. change (appends (build args msg)).
  unfold build, add_collection, add_projection, add_values, add_row,
    add_documents, add_upsert, put_identifier, put_expr.
  appending; apply appends_add_document.
Qed.

(** ** Which requests build *)

Lemma put_list_rest_all_done {A} (f : A -> Stmt unit) (l : list A) :
  (forall x, In x l -> forall s, exists s', f x s = (Done tt, s')) ->
  forall s, exists s', put_list_rest f l s = (Done tt, s').
Proof.
  induction l as [|x l IH]; intros Hf s.
  - now exists s.
  - cbn [put_list_rest]. rewrite (bind_done _ _ _ _ _ (put_run _ _)).
    destruct (Hf x (or_introl eq_refl) (emit s ",")) as [s1 H1].
    rewrite (bind_done _ _ _ _ _ H1).
    apply IH. intros y Hy. apply Hf. now right.
Qed.

Lemma put_list_all_done {A} (f : A -> Stmt unit) (l : list A) :
  (forall x, In x l -> forall s, exists s', f x s = (Done tt, s')) ->
  forall s, exists s', put_list l f s = (Done tt, s').
Proof.
  intros Hf s. destruct l as [|x l]; [now exists s|].
  cbn [put_list].
  destruct (Hf x (or_introl eq_refl) s) as [s1 H1].
  rewrite (bind_done _ _ _ _ _ H1).
  apply put_list_rest_all_done. intros y Hy. apply Hf. now right.
Qed.

Lemma build_no_rows (msg : Insert) s :
  row msg = [] ->
  data_model msg = TABLE \/ projection msg = [] ->
  fst (build args msg s) = Thrown MissingRows.
Proof.
  intros Hrow Hp. rewrite build_stages.
  rewrite (bind_done _ _ _ _ _ (add_projection_done msg _ Hp)).
  apply bind_fst_thrown.
  pose proof (add_rows_outcome msg (emit (emit s (header msg)) (column_list msg))) as H.
  rewrite Hrow in H. now rewrite H.
Qed.

Lemma build_table_bad_row (msg : Insert) s :
  data_model msg = TABLE ->
  Exists (fun r => field r = []
                   \/ (length (projection msg) <> 0%nat
                       /\ length (field r) <> length (projection msg)))
         (row msg) ->
  fst (build args msg s) = Thrown RowArityMismatch.
Proof.
  intros Hdm Hbad. rewrite build_stages.
  rewrite (bind_done _ _ _ _ _ (add_projection_done msg _ (or_introl Hdm))).
  apply bind_fst_thrown.
  unfold add_rows, is_table_data_model. rewrite Hdm, add_values_run.
  destruct (row msg) as [|r0 rows]; [inversion Hbad|].
  apply put_list_bad.
  - intros r _. apply add_row_stmt.
  - revert Hbad. apply Exists_impl. intros r Hr s1. now apply add_row_bad.
Qed.

Lemma rows_ok_or_bad (n : nat) (l : Row_list) :
  (forall r, In r l -> row_arity_ok n r)
  \/ Exists (fun r => field r = [] \/ (n <> 0%nat /\ length (field r) <> n)) l.
Proof.
  induction l as [|r l [IH | IH]].
  - left. intros r [].
  - destruct (field r) as [|e fs] eqn:Hf.
    + right. apply Exists_cons_hd. now left.
    + destruct (Nat.eq_dec n 0) as [Hn | Hn].
      * left. intros r' [<- | Hr]; [|now apply IH].
        split; [rewrite Hf; discriminate | intros H; now contradiction H].
      * destruct (Nat.eq_dec (length (field r)) n) as [Hl | Hl].
        -- left. intros r' [<- | Hr]; [|now apply IH].
           split; [rewrite Hf; discriminate | intros _; exact Hl].
        -- right. apply Exists_cons_hd. right. now split.
  - right. now apply Exists_cons_tl.
Qed.

Lemma rows_single_or_bad (l : Row_list) :
  (forall r, In r l -> length (field r) = 1%nat)
  \/ Exists (fun r => length (field r) <> 1%nat) l.
Proof.
  induction l as [|r l [IH | IH]].
  - left. intros r [].
  - destruct (Nat.eq_dec (length (field r)) 1) as [H | H].
    + left. intros r' [<- | Hr]; [exact H | now apply IH].
    + right. now apply Exists_cons_hd.
  - right. now apply Exists_cons_tl.
Qed.

(** X4. A relational request builds exactly when it has rows, each row
    is non-empty and, a projection being given, has as many fields as
    the projection, and upsert is not set. *)
Theorem table_build_accepts (msg : Insert) s :
  data_model msg = TABLE ->
  (fst (build args msg s) = Done tt
   <-> row msg <> []
       /\ (forall r, In r (row msg) -> row_arity_ok (length (projection msg)) r)
       /\ upsert msg = false).
Proof.
  intros Hdm. split.
  - intros Hdone.
    assert (Hrow : row msg <> []).
    { intros Hnil. rewrite (build_no_rows msg s Hnil (or_introl Hdm)) in Hdone.
      discriminate. }
    destruct (rows_ok_or_bad (length (projection msg)) (row msg)) as [Hok | Hbad].
    + split; [exact Hrow | split; [exact Hok|]].
      rewrite (build_table_ok msg s Hdm Hrow Hok) in Hdone.
      destruct (upsert msg); [discriminate | reflexivity].
    + rewrite (build_table_bad_row msg s Hdm Hbad) in Hdone. discriminate.
  - intros (Hrow & Hok & Hup).
    rewrite (build_table_ok msg s Hdm Hrow Hok), Hup. reflexivity.
Qed.

(** X6. The text of every statement that is built: [INSERT INTO], the
    collection, the column list, [VALUES], the rows and, when upsert is
    set, the conflict clause last. *)
Theorem built_statement_shape (msg : Insert) s s' :
  build args msg s = (Done tt, s') ->
  exists rows_text,
    m_builder s'
    = m_builder s ++ "INSERT INTO " ++ gen_collection (collection msg)
      ++ column_list msg ++ " VALUES " ++ rows_text
      ++ (if upsert msg then upsert_clause else EmptyString).
Proof.
  rewrite build_stages. unfold bind at 1. rewrite add_projection_run.
  assert (Hrest : bind (add_rows args msg)
                    (fun _ => if upsert msg then add_upsert (is_table_data_model msg)
                              else ret tt)
                    (emit (emit s (header msg)) (column_list msg)) = (Done tt, s') ->
                  exists rows_text,
                    m_builder s'
                    = m_builder s ++ "INSERT INTO " ++ gen_collection (collection msg)
                      ++ column_list msg ++ " VALUES " ++ rows_text
                      ++ (if upsert msg then upsert_clause else EmptyString)).
  { unfold bind at 1.
    pose proof (add_rows_outcome msg (emit (emit s (header msg)) (column_list msg))) as H.
    destruct (row msg) as [|r0 rows]; [rewrite H; discriminate|].
    destruct H as (s3 & [txt Ht] & [H | H]); rewrite H; [|discriminate].
    destruct (upsert msg).
    - rewrite add_upsert_run. destruct (is_table_data_model msg); [discriminate|].
      intros [= <-]. exists txt. unfold header. simpl. rewrite Ht. simpl.
      now rewrite !append_assoc.
    - intros [= <-]. exists txt. rewrite Ht. unfold header. simpl.
      now rewrite append_empty_r, !append_assoc. }
  destruct (data_model msg), (projection msg); try exact Hrest.
  discriminate.
Qed.

(** ** Ids and document rows *)

Lemma rendered_ids (doc : Expr) s :
  generated_ids (rendered args doc s)
  = if needs_id args doc then (generated_ids s ++ [minted_id s])%list
    else generated_ids s.
Proof.
  unfold rendered, needs_id.
  destruct (document_value args doc); try reflexivity;
    destruct (contains_id _); reflexivity.
Qed.

Lemma rendered_without_id (doc : Expr) s :
  needs_id args doc = false ->
  rendered args doc s = emit s (document_text args doc).
Proof.
  unfold rendered, needs_id, document_text.
  destruct (document_value args doc); try reflexivity;
    destruct (contains_id _); try reflexivity; discriminate.
Qed.

Lemma documents_rest_count (l : Row_list) s s' :
  put_list_rest (fun r => add_document args (field r)) l s = (Done tt, s') ->
  length (generated_ids s')
  = (length (generated_ids s) + length (filter (row_needs_id args) l))%nat.
Proof.
  revert s. induction l as [|r l IH]; intros s.
  - intros [= <-]. cbn. lia.
  - cbn [put_list_rest]. rewrite (bind_done _ _ _ _ _ (put_run _ _)).
    cbv beta. cbn [filter]. unfold row_needs_id at 1.
    destruct (field r) as [|doc [|doc' fs]];
      try (erewrite bind_thrown by (apply add_document_bad; cbn; discriminate);
           discriminate).
    rewrite (bind_done _ _ _ _ _ (add_document_run _ _)).
    intros H. rewrite (IH _ H), rendered_ids.
    change (generated_ids (emit s ",")) with (generated_ids s).
    destruct (needs_id args doc); cbn [length]; [rewrite length_app; cbn|]; lia.
Qed.

(** X7. A document build that returns has recorded one new id for each
    row whose value is on the identity path and has no [_id], and none
    for any other row. *)
Theorem document_minted_count (msg : Insert) s s' :
  data_model msg = DOCUMENT ->
  build args msg s = (Done tt, s') ->
  length (generated_ids s')
  = (length (generated_ids s) + length (filter (row_needs_id args) (row msg)))%nat.
Proof.
  intros Hdm. rewrite build_stages. unfold bind at 1.
  rewrite add_projection_run, Hdm.
  destruct (projection msg); [|discriminate].
  unfold bind at 1, add_rows, is_table_data_model. rewrite Hdm, add_documents_run.
  destruct (row msg) as [|r rows]; [discriminate|].
  cbn [put_list filter]. cbv beta. unfold row_needs_id at 1.
  destruct (field r) as [|doc [|doc' fs]];
    try (erewrite bind_thrown by (apply add_document_bad; cbn; discriminate);
           discriminate).
  rewrite (bind_done _ _ _ _ _ (add_document_run _ _)).
  destruct (put_list_rest _ rows _) as [[[]|e] s1] eqn:Hrest; [|discriminate].
  apply documents_rest_count in Hrest. rewrite rendered_ids in Hrest.
  assert (Hs1 : length (generated_ids s1)
                = (length (generated_ids s)
                   + length (if needs_id args doc then r :: filter (row_needs_id args) rows
                             else filter (row_needs_id args) rows))%nat).
  { rewrite Hrest.
    change (generated_ids
              (emit (emit (emit s (header msg)) (column_list msg)) " VALUES "))
      with (generated_ids s).
    destruct (needs_id args doc); cbn [length]; [rewrite length_app; cbn|]; lia. }
  destruct (upsert msg); [rewrite add_upsert_run|]; intros [= <-]; exact Hs1.
Qed.

(** X8. Ids minted before a failing row stay recorded: when the first
    row of a document request gets an id and the second has not exactly
    one field, the build throws the arity error and the id minted for the
    first row is in the generated ids. *)
Theorem minted_ids_survive_failure (msg : Insert) s doc bad rest :
  data_model msg = DOCUMENT ->
  projection msg = [] ->
  row msg = {| field := [doc] |} :: bad :: rest ->
  needs_id args doc = true ->
  length (field bad) <> 1%nat ->
  fst (build args msg s) = Thrown RowArityMismatch
  /\ generated_ids (snd (build args msg s))
     = (generated_ids s ++ [minted_id s])%list.
Proof.
  intros Hdm Hp Hrow Hneeds Hbad.
  assert (H : build args msg s
              = (Thrown RowArityMismatch,
                 emit (rendered args doc
                         (emit (emit (emit s (header msg)) (column_list msg))
                               " VALUES ")) ",")).
  { rewrite build_stages.
    rewrite (bind_done _ _ _ _ _ (add_projection_done msg _ (or_intror Hp))).
    unfold bind at 1, add_rows, is_table_data_model.
    rewrite Hdm, add_documents_run, Hrow.
    cbn [put_list put_list_rest field]. cbv beta.
    rewrite (bind_done _ _ _ _ _ (add_document_run _ _)).
    rewrite (bind_done _ _ _ _ _ (put_run _ _)).
    now rewrite (bind_thrown _ _ _ _ _ (add_document_bad _ _ Hbad)). }
  rewrite H. split; [reflexivity|]. cbn [snd].
  change (generated_ids (emit ?x ",")) with (generated_ids x).
  rewrite rendered_ids, Hneeds. reflexivity.
Qed.

(** X9. A document request without projection whose rows each have one
    field that brings its [_id], or is left to the generic rendering,
    builds the statement of its comma-joined rows, each as it came
    between parentheses, and leaves the aggregator alone. *)
Theorem document_statement_without_synthesis (msg : Insert) s :
  data_model msg = DOCUMENT ->
  projection msg = [] ->
  row msg <> [] ->
  (forall r, In r (row msg) -> exists doc, field r = [doc] /\ needs_id args doc = false) ->
  build args msg s
  = (Done tt,
     emit s ("INSERT INTO " ++ gen_collection (collection msg) ++ " (doc)"
             ++ " VALUES "
             ++ String.concat "," (map (document_row_text args) (row msg))
             ++ (if upsert msg then upsert_clause else EmptyString))).
Proof.
  intros Hdm Hp Hrow Hdocs. rewrite build_stages.
  rewrite (bind_done _ _ _ _ _ (add_projection_done msg _ (or_intror Hp))).
  unfold bind at 1, add_rows, is_table_data_model, column_list.
  rewrite Hdm, add_documents_run.
  destruct (row msg) as [|r0 rows] eqn:E; [congruence|].
  rewrite (put_list_puts _ (document_row_text args)).
  - rewrite !emit_emit. unfold header.
    destruct (upsert msg).
    + rewrite add_upsert_run, emit_emit. f_equal. f_equal.
      now rewrite !append_assoc.
    + unfold ret. f_equal. f_equal. now rewrite append_empty_r, !append_assoc.
  - intros r Hr s1. destruct (Hdocs r Hr) as (doc & Hf & Hn).
    unfold document_row_text. rewrite Hf, add_document_run.
    now rewrite rendered_without_id.
Qed.

(** X10. A placeholder bound to an accepted literal is rendered as that
    literal given inline; a placeholder beyond the bound arguments is
    left to the generic rendering, and no id is minted for it. *)
Theorem placeholder_rows (p : Placeholder) s :
  (forall a, nth_error args (N.to_nat p) = Some a ->
             accepted_literal a <> None ->
             add_document args [PLACEHOLDER p] s = add_document args [LITERAL a] s)
  /\ ((N.of_nat (length args) <= p)%N ->
      add_document args [PLACEHOLDER p] s
      = (Done tt, emit s ("(" ++ gen_expr args (PLACEHOLDER p) ++ ")"))).
Proof.
  split.
  - intros a Ha Hacc. rewrite !add_document_run.
    unfold rendered, document_value. rewrite Ha.
    unfold literal_value. destruct (accepted_literal a); [reflexivity | congruence].
  - intros Hp. rewrite add_document_run.
    unfold rendered, document_value.
    destruct (nth_error args (N.to_nat p)) eqn:E; [|reflexivity].
    assert (nth_error args (N.to_nat p) <> None) by congruence.
    apply nth_error_Some in H. lia.
Qed.

(** X11. [is_id_in_object] holds exactly when a member of the object has
    the key [_id]; the values of the members, and so the keys nested in
    them, do not count. *)
Theorem is_id_in_object_keys (o : Object) :
  is_id_in_object o = true <-> In "_id" (map fst o).
Proof.
  induction o as [|[k v] o IH]; cbn [is_id_in_object map fst In].
  - split; [discriminate | intros []].
  - destruct (String.eqb_spec k "_id") as [-> | Hk].
    + split; [now left | reflexivity].
    + rewrite IH. split; [now right | intros [H | H]; [congruence | exact H]].
Qed.

(** X12. [add_document_literal] never throws; it returns true exactly for
    an accepted literal, and when it returns false it has appended
    nothing and minted nothing. *)
Theorem add_document_literal_accepts (a : Scalar) s :
  (fst (add_document_literal args a s) = Done true <-> accepted_literal a <> None)
  /\ (accepted_literal a = None -> add_document_literal args a s = (Done false, s)).
Proof.
  rewrite add_document_literal_run. unfold literal_value.
  destruct (accepted_literal a); cbn [fst]; repeat split;
    try congruence; try discriminate.
Qed.

(** ** Configuring the aggregator *)

(** X13. [configue] succeeds exactly when the session answers the query
    with one row; it then sets the variables to the three values of that
    row and touches neither the generator nor the generated ids. *)
Theorem configue_succeeds (data_context : Sql_session) (agg : Document_id_aggregator) :
  (fst (fst (configue data_context agg)) = None
   <-> exists r, answer data_context configue_sql = Done [r])
  /\ (forall p o i,
        answer data_context configue_sql = Done [(p, o, i)] ->
        snd (fst (configue data_context agg))
        = {| m_base_id_generator := m_base_id_generator agg;
             m_variables := {| prefix := p; auto_increment_offset := o;
                               auto_increment_increment := i |};
             m_document_ids := m_document_ids agg |}).
Proof.
  unfold configue, query.
  destruct (answer data_context configue_sql) as [result | e] eqn:Ha.
  - destruct (Z.eqb_spec (Z.of_nat (length result)) 1) as [H1 | H1]; cbn [negb].
    + destruct result as [|[[p o] i] [|r' result]]; cbn in H1; try lia.
      cbn. split; [split; [intros _; now eexists | reflexivity]|].
      intros p' o' i' [= -> -> ->]. reflexivity.
    + cbn. split.
      * split; [discriminate | intros [r [= ->]]; now contradiction H1].
      * intros p o i [= ->]. now contradiction H1.
  - cbn. split; [split; [discriminate | intros [r [=]]] | intros p o i [=]].
Qed.

(** X14. An error thrown by the session while the query runs is caught
    and returned as it is, not as the internal error; the aggregator is
    left as it was and the query was run once. *)
Theorem configue_returns_thrown_error
        (data_context : Sql_session) (agg : Document_id_aggregator) (e : Error_code) :
  answer data_context configue_sql = Thrown e ->
  configue data_context agg
  = (Some e, agg,
     {| answer := answer data_context;
        executed := executed data_context ++ [configue_sql] |}).
Proof.
  intros Ha. unfold configue, query. now rewrite Ha.
Qed.

(** X15. After a successful [configue] the next [generate_id] calls the
    session's generator with the three values the query returned, and
    records and returns the id it gets. *)
Theorem configue_then_generate_id
        (data_context : Sql_session) (agg : Document_id_aggregator)
        (p o i : N) (b : string) :
  answer data_context configue_sql = Done [(p, o, i)] ->
  let v := {| prefix := p; auto_increment_offset := o;
              auto_increment_increment := i |} in
  generate_id (with_buffer b (snd (fst (configue data_context agg))))
  = (Done (fst (generate v (m_base_id_generator agg))),
     with_buffer b
       {| m_base_id_generator := snd (generate v (m_base_id_generator agg));
          m_variables := v;
          m_document_ids :=
            m_document_ids agg ++ [fst (generate v (m_base_id_generator agg))] |}).
Proof.
  intros Ha v. rewrite generate_id_run.
  unfold configue, query. rewrite Ha. reflexivity.
Qed.

(** ** The rows of an accepted document request *)

Lemma rendered_rendering (doc : Expr) s :
  exists text ids,
    Row_rendering args doc text ids
    /\ m_builder (rendered args doc s) = m_builder s ++ text
    /\ generated_ids (rendered args doc s) = (generated_ids s ++ ids)%list.
Proof.
  unfold Row_rendering, rendered.
  destruct (document_value args doc) as [a value | o |] eqn:E.
  - destruct (contains_id (Json_text a value)) eqn:Hid.
    + exists ("(" ++ kept_text args (Json_text a value) ++ ")"), [].
      split; [left; now repeat split|].
      split; [reflexivity | unfold generated_ids; simpl; now rewrite app_nil_r].
    + eexists _, [minted_id s].
      split; [right; split; [reflexivity | exists (minted_id s); split; reflexivity]|].
      split; reflexivity.
  - destruct (contains_id (Json_object o)) eqn:Hid.
    + exists ("(" ++ kept_text args (Json_object o) ++ ")"), [].
      split; [left; now repeat split|].
      split; [reflexivity | unfold generated_ids; simpl; now rewrite app_nil_r].
    + eexists _, [minted_id s].
      split; [right; split; [reflexivity | exists (minted_id s); split; reflexivity]|].
      split; reflexivity.
  - exists ("(" ++ gen_expr args doc ++ ")"), [].
    split; [now split|].
    split; [reflexivity | unfold generated_ids; simpl; now rewrite app_nil_r].
Qed.

Lemma documents_rest_renderings (l : Row_list) s s' :
  put_list_rest (fun r => add_document args (field r)) l s = (Done tt, s') ->
  exists docs renderings,
    map field l = map (fun doc => [doc]) docs
    /\ Forall2 (fun doc r => Row_rendering args doc (fst r) (snd r)) docs renderings
    /\ (forall b t, m_builder s = b ++ t ->
                    m_builder s' = b ++ String.concat "," (t :: map fst renderings))
    /\ generated_ids s' = (generated_ids s ++ List.concat (map snd renderings))%list.
Proof.
  revert s. induction l as [|r l IH]; intros s.
  - intros [= <-]. exists [], []. repeat split; [constructor | |].
    + intros b t H. exact H.
    + cbn. now rewrite app_nil_r.
  - cbn [put_list_rest]. rewrite (bind_done _ _ _ _ _ (put_run _ _)). cbv beta.
    destruct (field r) as [|doc [|doc' fs]] eqn:Hf;
      try (erewrite bind_thrown by (apply add_document_bad; cbn; discriminate);
           discriminate).
    rewrite (bind_done _ _ _ _ _ (add_document_run _ _)).
    intros H. destruct (IH _ H) as (docs & rends & Hmap & Hall & Htext & Hids).
    destruct (rendered_rendering doc (emit s ",")) as (text & ids & Hr & Hb & Hi).
    exists (doc :: docs), ((text, ids) :: rends).
    split; [cbn [map]; now rewrite Hf, Hmap|].
    split; [constructor; [exact Hr | exact Hall]|].
    split.
    + intros b t Hs.
      rewrite (Htext b (t ++ "," ++ text)).
      * cbn [map fst]. now rewrite concat_join.
      * rewrite Hb. cbn [emit m_builder]. rewrite Hs. now rewrite !append_assoc.
    + rewrite Hids, Hi. cbn [map snd List.concat].
      change (generated_ids (emit s ",")) with (generated_ids s).
      now rewrite app_assoc.
Qed.

(** C1, amended. The statement of a document request that build accepts
    is made of one rendering per row, comma-joined after
    [INSERT INTO], the collection and [ (doc) VALUES ]; every row has
    one field; a row whose field is an accepted literal, a placeholder
    that resolves to one, or an object is rendered with a top-level
    [_id]: the value as it came when it has one, else [JSON_SET] with an
    id minted for that row, and the ids minted for the rows are those the
    build has appended to the generated ids, in the order of the rows.
    A row with any other field is rendered by the expression generator
    between parentheses and no id is minted for it. *)
Theorem accepted_documents_carry_id (msg : Insert) s s' :
  data_model msg = DOCUMENT ->
  build args msg s = (Done tt, s') ->
  exists docs renderings,
    map field (row msg) = map (fun doc => [doc]) docs
    /\ Forall2 (fun doc r => Row_rendering args doc (fst r) (snd r)) docs renderings
    /\ m_builder s'
       = m_builder s ++ "INSERT INTO " ++ gen_collection (collection msg)
         ++ " (doc)" ++ " VALUES " ++ String.concat "," (map fst renderings)
         ++ (if upsert msg then upsert_clause else EmptyString)
    /\ generated_ids s' = (generated_ids s ++ List.concat (map snd renderings))%list.
Proof.
  intros Hdm. rewrite build_stages. unfold bind at 1.
  rewrite add_projection_run, Hdm.
  destruct (projection msg); [|discriminate].
  unfold bind at 1, add_rows, is_table_data_model, column_list.
  rewrite Hdm, add_documents_run.
  destruct (row msg) as [|r rows]; [discriminate|].
  cbn [put_list]. cbv beta.
  destruct (field r) as [|doc [|doc' fs]] eqn:Hf;
    try (erewrite bind_thrown by (apply add_document_bad; cbn; discriminate);
         discriminate).
  rewrite (bind_done _ _ _ _ _ (add_document_run _ _)).
  set (sv := emit (emit (emit s (header msg)) " (doc)") " VALUES ").
  destruct (put_list_rest _ rows _) as [[[]|e] s1] eqn:Hrest; [|discriminate].
  destruct (documents_rest_renderings _ _ _ Hrest)
    as (docs & rends & Hmap & Hall & Htext & Hids).
  destruct (rendered_rendering doc sv) as (text & ids & Hr & Hb & Hi).
  assert (Hs1 : m_builder s1
                = m_builder s ++ "INSERT INTO " ++ gen_collection (collection msg)
                  ++ " (doc)" ++ " VALUES "
                  ++ String.concat "," (map fst ((text, ids) :: rends))).
  { rewrite (Htext (m_builder sv) text Hb). unfold sv, header. simpl.
    now rewrite !append_assoc. }
  assert (Hi1 : generated_ids s1
                = (generated_ids s ++ List.concat (map snd ((text, ids) :: rends)))%list).
  { rewrite Hids, Hi. cbn [map snd List.concat]. now rewrite app_assoc. }
  intros Hdone.
  exists (doc :: docs), ((text, ids) :: rends).
  split; [cbn [map]; now rewrite Hf, Hmap|].
  split; [constructor; [exact Hr | exact Hall]|].
  destruct (upsert msg).
  - rewrite add_upsert_run in Hdone. injection Hdone as <-.
    split; [|exact Hi1].
    cbn [emit m_builder]. rewrite Hs1. now rewrite !append_assoc.
  - injection Hdone as <-.
    split; [|exact Hi1].
    rewrite Hs1. now rewrite append_empty_r.
Qed.

(** ** The state a failed build leaves *)

Lemma put_list_rest_thrown {A} (f : A -> Stmt unit) (l : list A) s e s' :
  (forall x, row_stmt (f x)) ->
  put_list_rest f l s = (Thrown e, s') ->
  e = RowArityMismatch
  /\ exists good bad rest s0,
       l = (good ++ bad :: rest)%list
       /\ put_list_rest f good s = (Done tt, s0)
       /\ f bad (emit s0 ",") = (Thrown RowArityMismatch, emit s0 ",")
       /\ s' = emit s0 ",".
Proof.
  intros Hf. revert s. induction l as [|x l IH]; intros s; [discriminate|].
  cbn [put_list_rest]. rewrite (bind_done _ _ _ _ _ (put_run _ _)).
  destruct (Hf x (emit s ",")) as [(s1 & H1 & _) | H1].
  - rewrite (bind_done _ _ _ _ _ H1). intros H.
    destruct (IH _ H) as (He & good & bad & rest & s0 & Hl & Hgood & Hbad & Hs').
    split; [exact He|].
    exists (x :: good), bad, rest, s0.
    split; [now rewrite Hl|].
    split; [|now split].
    cbn [put_list_rest]. rewrite (bind_done _ _ _ _ _ (put_run _ _)).
    now rewrite (bind_done _ _ _ _ _ H1).
  - rewrite (bind_thrown _ _ _ _ _ H1). intros [= <- <-].
    split; [reflexivity|].
    exists [], x, l, s. now repeat split.
Qed.

(** A list of row statements that throws has run the rows before the
    first one that throws, and the separator after them. *)
Lemma put_list_thrown {A} (f : A -> Stmt unit) (l : list A) s e s' :
  (forall x, row_stmt (f x)) ->
  put_list l f s = (Thrown e, s') ->
  e = RowArityMismatch
  /\ exists good bad rest,
       l = (good ++ bad :: rest)%list
       /\ (exists s1, f bad s1 = (Thrown RowArityMismatch, s1))
       /\ match good with
          | [] => s' = s
          | _ => exists s0, put_list good f s = (Done tt, s0) /\ s' = emit s0 ","
          end.
Proof.
  intros Hf. destruct l as [|x l]; [discriminate|].
  cbn [put_list].
  destruct (Hf x s) as [(s1 & H1 & _) | H1].
  - rewrite (bind_done _ _ _ _ _ H1). intros H.
    destruct (put_list_rest_thrown f l s1 e s' Hf H)
      as (He & good & bad & rest & s0 & Hl & Hgood & Hbad & Hs').
    split; [exact He|].
    exists (x :: good), bad, rest.
    split; [now rewrite Hl|].
    split; [exists (emit s0 ","); exact Hbad|].
    exists s0. split; [|exact Hs'].
    cbn [put_list]. now rewrite (bind_done _ _ _ _ _ H1).
  - rewrite (bind_thrown _ _ _ _ _ H1). intros [= <- <-].
    split; [reflexivity|].
    exists [], x, l. split; [reflexivity|]. split; [exists s; exact H1 | reflexivity].
Qed.

Lemma add_one_row_stmt (msg : Insert) (r : TypedRow) :
  row_stmt (add_one_row args msg r).
Proof.
  unfold add_one_row.
  destruct (is_table_data_model msg); [apply add_row_stmt | apply add_document_stmt].
Qed.

(** Only a row that its data model refuses makes the row statement
    throw. *)
Lemma add_one_row_thrown (msg : Insert) (r : TypedRow) s e s' :
  add_one_row args msg r s = (Thrown e, s') -> bad_row msg r.
Proof.
  unfold add_one_row, is_table_data_model, bad_row.
  destruct (data_model msg).
  - destruct (field r) as [|doc [|doc' fs]]; try discriminate.
    now rewrite add_document_run.
  - destruct (field r) as [|x fs] eqn:Hf; [now left|].
    destruct (projection msg) as [|c p] eqn:Hp.
    + rewrite (add_row_ok 0); [discriminate | discriminate | congruence].
    + destruct (Nat.eq_dec (length (x :: fs)) (length (c :: p))) as [Hl | Hl].
      * rewrite (add_row_ok (length (c :: p))); [discriminate | discriminate | auto].
      * intros _. right. split; [discriminate | exact Hl].
Qed.

Lemma add_rows_run (msg : Insert) s :
  add_rows args msg s
  = match row msg with
    | [] => (Thrown MissingRows, s)
    | _ => put_list (row msg) (add_one_row args msg) (emit s " VALUES ")
    end.
Proof.
  unfold add_rows, add_one_row.
  destruct (is_table_data_model msg);
    [rewrite add_values_run | rewrite add_documents_run];
    destruct (row msg); reflexivity.
Qed.

Lemma rows_stage_thrown (msg : Insert) s2 e s' :
  bind (add_rows args msg)
       (fun _ => if upsert msg then add_upsert (is_table_data_model msg) else ret tt)
       s2 = (Thrown e, s') ->
  (e = MissingRows /\ row msg = [] /\ s' = s2)
  \/ (e = RowArityMismatch
      /\ exists good bad rest,
           row msg = (good ++ bad :: rest)%list
           /\ bad_row msg bad
           /\ match good with
              | [] => s' = emit s2 " VALUES "
              | _ =>
                  exists s0,
                    put_list good (add_one_row args msg) (emit s2 " VALUES ")
                    = (Done tt, s0)
                    /\ s' = emit s0 ","
              end)
  \/ (e = UpsertNotSupported
      /\ data_model msg = TABLE
      /\ upsert msg = true
      /\ add_rows args msg s2 = (Done tt, s')).
Proof.
  unfold bind. rewrite add_rows_run.
  destruct (row msg) as [|r0 rows] eqn:Hrow.
  - intros [= <- <-]. left. now repeat split.
  - destruct (put_list (r0 :: rows) (add_one_row args msg) (emit s2 " VALUES "))
      as [[[]|e1] s1] eqn:Hlist.
    + destruct (upsert msg); [|discriminate].
      rewrite add_upsert_run. unfold is_table_data_model.
      destruct (data_model msg); [discriminate|].
      intros [= <- <-]. right. right. now repeat split.
    + intros [= <- <-].
      destruct (put_list_thrown _ _ _ _ _ (add_one_row_stmt msg) Hlist)
        as (He & good & bad & rest & Hl & [sb Hbad] & Hs').
      right. left. split; [exact He|].
      exists good, bad, rest.
      split; [exact Hl|].
      split; [exact (add_one_row_thrown _ _ _ _ _ Hbad)|].
      exact Hs'.
Qed.

(** C2, amended. The state a failed build leaves is the state at the
    throw; nothing is appended after it and nothing appended before it
    is taken back.  BadProjection: the head of the statement.
    MissingRows: the head and the column list.  RowArityMismatch: the
    rows before the first refused one have been rendered, as a build of
    those rows alone renders them, text and minted ids, and the
    separator after them is in the buffer; when the first row is the
    refused one the buffer ends with [VALUES].  UpsertNotSupported: the
    whole statement of the relational request has been rendered, as the
    build without upsert renders it. *)
Theorem failed_build_state (msg : Insert) s e s' :
  build args msg s = (Thrown e, s') ->
  (e = BadProjection
   /\ s' = emit s ("INSERT INTO " ++ gen_collection (collection msg)))
  \/ (e = MissingRows
      /\ row msg = []
      /\ s' = emit s ("INSERT INTO " ++ gen_collection (collection msg)
                      ++ column_list msg))
  \/ (e = RowArityMismatch
      /\ exists good bad rest,
           row msg = (good ++ bad :: rest)%list
           /\ bad_row msg bad
           /\ match good with
              | [] =>
                  s' = emit s ("INSERT INTO " ++ gen_collection (collection msg)
                               ++ column_list msg ++ " VALUES ")
              | _ =>
                  exists s0,
                    build args (with_rows msg good) s = (Done tt, s0)
                    /\ s' = emit s0 ","
              end)
  \/ (e = UpsertNotSupported
      /\ data_model msg = TABLE
      /\ upsert msg = true
      /\ build args (without_upsert msg) s = (Done tt, s')).
Proof.
  rewrite !build_stages.
  change (header (without_upsert msg)) with (header msg).
  change (projection (without_upsert msg)) with (projection msg).
  change (is_table_data_model (without_upsert msg)) with (is_table_data_model msg).
  change (add_rows args (without_upsert msg)) with (add_rows args msg).
  change (upsert (without_upsert msg)) with false. cbv iota.
  destruct (add_projection (projection msg) (is_table_data_model msg)
                           (emit s (header msg)))
    as [[[]|e0] s2] eqn:Hproj.
  - rewrite (bind_done _ _ _ _ _ Hproj), (bind_done _ _ _ _ _ Hproj).
    assert (Hs2 : s2 = emit (emit s (header msg)) (column_list msg)).
    { rewrite add_projection_run in Hproj.
      destruct (data_model msg), (projection msg); congruence. }
    intros H. right.
    destruct (rows_stage_thrown msg s2 e s' H)
      as [(He & Hrow & Hs') | [(He & good & bad & rest & Hl & Hbad & Hs')
                              | (He & Hdm & Hup & Hrows)]].
    + left. split; [exact He | split; [exact Hrow|]].
      rewrite Hs', Hs2, emit_emit. unfold header. now rewrite append_assoc.
    + right. left. split; [exact He|].
      exists good, bad, rest. split; [exact Hl | split; [exact Hbad|]].
      destruct good as [|g good].
      * rewrite Hs', Hs2, !emit_emit. unfold header. now rewrite !append_assoc.
      * destruct Hs' as (s0 & Hs0 & Hs'). exists s0. split; [|exact Hs'].
        rewrite build_stages.
        change (header (with_rows msg (g :: good))) with (header msg).
        change (projection (with_rows msg (g :: good))) with (projection msg).
        change (is_table_data_model (with_rows msg (g :: good)))
          with (is_table_data_model msg).
        change (upsert (with_rows msg (g :: good))) with false. cbv iota.
        rewrite (bind_done _ _ _ _ _ Hproj).
        unfold bind at 1. rewrite add_rows_run.
        change (row (with_rows msg (g :: good))) with (g :: good).
        change (add_one_row args (with_rows msg (g :: good)))
          with (add_one_row args msg).
        cbv iota. now rewrite Hs0.
    + right. right. split; [exact He | split; [exact Hdm | split; [exact Hup|]]].
      unfold bind. now rewrite Hrows.
  - rewrite (bind_thrown _ _ _ _ _ Hproj).
    rewrite add_projection_run in Hproj.
    destruct (data_model msg), (projection msg); try discriminate.
    injection Hproj as <- <-.
    intros [= <- <-]. left. now split.
Qed.

(** ** One insert *)


(** X5. A document request that builds has no projection, has rows, and
    each of its rows has exactly one field. *)
Theorem document_build_requires (msg : Insert) s :
  data_model msg = DOCUMENT ->
  fst (build args msg s) = Done tt ->
  projection msg = []
  /\ row msg <> []
  /\ forall r, In r (row msg) -> length (field r) = 1%nat.
Proof.
  intros Hdm Hdone.
  assert (Hp : projection msg = []).
  { destruct (projection msg) eqn:E; [reflexivity|].
    rewrite build_bad_projection in Hdone; [discriminate | exact Hdm | congruence]. }
  assert (Hrow : row msg <> []).
  { intros Hnil. rewrite (build_no_rows msg s Hnil (or_intror Hp)) in Hdone.
    discriminate. }
  destruct (rows_single_or_bad (row msg)) as [Hok | Hbad]; [now repeat split|].
  rewrite (build_document_bad_row msg s Hdm Hp Hbad) in Hdone. discriminate.
Qed.

End Properties.

(** * The claims on concrete requests *)

#[local] Existing Instance Sample.collaborators.

(** C1: an accepted document request whose rows, an array and a
    placeholder bound to [NULL], are rendered with no [_id] and with no
    id minted. *)
Lemma document_row_without_id :
  build [V_NULL] (Sample.doc_request [[ARRAY []]; [PLACEHOLDER 0]] false) Sample.fresh
  = (Done tt,
     {| m_builder := "INSERT INTO `s`.`c` (doc) VALUES (JSON_ARRAY()),(NULL)";
        m_document_id_aggregator := m_document_id_aggregator Sample.fresh |}).
Proof. reflexivity. Qed.

Lemma accepted_documents_carry_id_witness :
  exists docs renderings,
    map field (row (Sample.doc_request [[Sample.doc_without_id]; [Sample.doc_with_id]]
                                       false))
    = map (fun doc => [doc]) docs
    /\ Forall2 (fun doc r => Row_rendering [] doc (fst r) (snd r)) docs renderings
    /\ m_builder
         (snd (build [] (Sample.doc_request
                           [[Sample.doc_without_id]; [Sample.doc_with_id]] false)
                     Sample.fresh))
       = m_builder Sample.fresh ++ "INSERT INTO " ++ gen_collection Sample.coll
         ++ " (doc)" ++ " VALUES " ++ String.concat "," (map fst renderings)
         ++ EmptyString
    /\ generated_ids
         (snd (build [] (Sample.doc_request
                           [[Sample.doc_without_id]; [Sample.doc_with_id]] false)
                     Sample.fresh))
       = (generated_ids Sample.fresh ++ List.concat (map snd renderings))%list.
Proof.
  apply (accepted_documents_carry_id []
           (Sample.doc_request [[Sample.doc_without_id]; [Sample.doc_with_id]] false)
           Sample.fresh
           (snd (build [] (Sample.doc_request
                             [[Sample.doc_without_id]; [Sample.doc_with_id]] false)
                       Sample.fresh)));
    [reflexivity | vm_compute; reflexivity].
Defined.

(** C2: a document request with a projection fails with BadProjection
    and the head of the statement is in the buffer. *)
Lemma failed_build_leaves_text :
  build [] (Sample.projected_doc_request [[Sample.doc_with_id]]) Sample.fresh
  = (Thrown BadProjection, emit Sample.fresh "INSERT INTO `s`.`c`")
  /\ m_builder (snd (build [] (Sample.projected_doc_request [[Sample.doc_with_id]])
                          Sample.fresh))
     <> m_builder Sample.fresh.
Proof. split; [reflexivity | discriminate]. Qed.

Lemma failed_build_state_witness :
  (RowArityMismatch = BadProjection
   /\ snd (build [] Sample.short_row_request Sample.fresh)
      = emit Sample.fresh ("INSERT INTO " ++ gen_collection Sample.coll))
  \/ (RowArityMismatch = MissingRows
      /\ row Sample.short_row_request = []
      /\ snd (build [] Sample.short_row_request Sample.fresh)
         = emit Sample.fresh ("INSERT INTO " ++ gen_collection Sample.coll
                              ++ column_list Sample.short_row_request))
  \/ (RowArityMismatch = RowArityMismatch
      /\ exists good bad rest,
           row Sample.short_row_request = (good ++ bad :: rest)%list
           /\ bad_row Sample.short_row_request bad
           /\ match good with
              | [] =>
                  snd (build [] Sample.short_row_request Sample.fresh)
                  = emit Sample.fresh
                         ("INSERT INTO " ++ gen_collection Sample.coll
                          ++ column_list Sample.short_row_request ++ " VALUES ")
              | _ =>
                  exists s0,
                    build [] (with_rows Sample.short_row_request good) Sample.fresh
                    = (Done tt, s0)
                    /\ snd (build [] Sample.short_row_request Sample.fresh)
                       = emit s0 ","
              end)
  \/ (RowArityMismatch = UpsertNotSupported
      /\ data_model Sample.short_row_request = TABLE
      /\ upsert Sample.short_row_request = true
      /\ build [] (without_upsert Sample.short_row_request) Sample.fresh
         = (Done tt, snd (build [] Sample.short_row_request Sample.fresh))).
Proof.
  apply (failed_build_state [] Sample.short_row_request Sample.fresh
           RowArityMismatch
           (snd (build [] Sample.short_row_request Sample.fresh))).
  vm_compute. reflexivity.
Defined.

(** C3: an object without [_id] goes into [JSON_SET] as the expression
    generator renders it, not as a quoted value. *)
Lemma object_value_is_not_quoted :
  add_document [] [OBJECT [("a", Sample.one)]] Sample.fresh
  = (Done tt,
     emit (minted Sample.fresh)
          "(JSON_SET(JSON_OBJECT('a',1), '$._id', '7-0'))")
  /\ ~ exists v,
        m_builder (snd (add_document [] [OBJECT [("a", Sample.one)]] Sample.fresh))
        = "(JSON_SET(" ++ Sample.quote_string v ++ ", '$._id', "
          ++ Sample.quote_string "7-0" ++ "))".
Proof.
  split; [reflexivity|].
  intros [v H]. vm_compute in H. discriminate.
Qed.

(** C3 on the JSON text [{"a": 1}]. *)
Lemma synthesis_of_missing_id_witness :
  exists id g,
    generate (m_variables (m_document_id_aggregator Sample.fresh))
             (m_base_id_generator (m_document_id_aggregator Sample.fresh)) = (id, g)
    /\ add_document [] [Sample.doc_without_id] Sample.fresh
       = (Done tt,
          {| m_builder :=
               m_builder Sample.fresh ++ "(JSON_SET("
               ++ set_text [] (document_value [] Sample.doc_without_id)
               ++ ", '$._id', " ++ quote_string id ++ "))";
             m_document_id_aggregator :=
               {| m_base_id_generator := g;
                  m_variables := m_variables (m_document_id_aggregator Sample.fresh);
                  m_document_ids :=
                    m_document_ids (m_document_id_aggregator Sample.fresh) ++ [id] |} |}).
Proof.
  apply (synthesis_of_missing_id [] Sample.doc_without_id Sample.fresh);
    [discriminate | reflexivity].
Defined.

(** C4: the octets [{"_id": 1}] are rendered quoted, not as they came. *)
Lemma kept_document_is_quoted :
  add_document [] [Sample.doc_with_id] Sample.fresh
  = (Done tt, emit Sample.fresh ("('" ++ Sample.json_with_id ++ "')"))
  /\ m_builder (snd (add_document [] [Sample.doc_with_id] Sample.fresh))
     <> "(" ++ Sample.json_with_id ++ ")".
Proof. split; [reflexivity | discriminate]. Qed.

Lemma present_id_kept_witness :
  add_document [] [Sample.doc_with_id] Sample.fresh
  = (Done tt,
     {| m_builder :=
          m_builder Sample.fresh ++ "("
          ++ kept_text [] (document_value [] Sample.doc_with_id) ++ ")";
        m_document_id_aggregator := m_document_id_aggregator Sample.fresh |}).
Proof.
  apply (present_id_kept [] Sample.doc_with_id Sample.fresh);
    [discriminate | reflexivity].
Defined.

(** C5 on a document request with a projection and on one without. *)
Lemma document_projection_witness :
  fst (build [] (Sample.projected_doc_request [[Sample.doc_with_id]]) Sample.fresh)
  = Thrown BadProjection
  /\ exists rest,
       m_builder (snd (build [] (Sample.doc_request [[Sample.doc_with_id]] false)
                             Sample.fresh))
       = m_builder Sample.fresh ++ "INSERT INTO " ++ gen_collection Sample.coll
         ++ " (doc)" ++ rest.
Proof.
  split.
  - apply (proj1 (document_projection []
                    (Sample.projected_doc_request [[Sample.doc_with_id]])
                    Sample.fresh eq_refl)).
    discriminate.
  - apply (proj2 (document_projection []
                    (Sample.doc_request [[Sample.doc_with_id]] false)
                    Sample.fresh eq_refl)).
    reflexivity.
Defined.

(** C6: with upsert set and no rows, a relational request fails with
    MissingRows, not UpsertNotSupported, and a document request fails
    with no clause appended. *)
Lemma upsert_without_rows :
  build [] (Sample.table_request ["a"] [] true) Sample.fresh
  = (Thrown MissingRows, emit Sample.fresh "INSERT INTO `s`.`c` (`a`)")
  /\ fst (build [] (Sample.table_request ["a"] [] true) Sample.fresh)
     <> Thrown UpsertNotSupported
  /\ build [] (Sample.doc_request [] true) Sample.fresh
     = (Thrown MissingRows, emit Sample.fresh "INSERT INTO `s`.`c` (doc)").
Proof. split; [reflexivity | split; [discriminate | reflexivity]]. Qed.

Lemma upsert_stage_witness :
  build [] (Sample.doc_request [[Sample.doc_with_id]] true) Sample.fresh
  = (Done tt,
     emit (snd (build [] (Sample.doc_request [[Sample.doc_with_id]] false)
                      Sample.fresh))
          upsert_clause)
  /\ build [] (Sample.table_request ["a"] [[Sample.one]] true) Sample.fresh
     = (Thrown UpsertNotSupported,
        snd (build [] (Sample.table_request ["a"] [[Sample.one]] false) Sample.fresh)).
Proof.
  split.
  - exact (upsert_stage [] (Sample.doc_request [[Sample.doc_with_id]] true)
             Sample.fresh eq_refl).
  - exact (upsert_stage [] (Sample.table_request ["a"] [[Sample.one]] true)
             Sample.fresh eq_refl).
Defined.

(** C7: a document request with a projection and no rows fails with
    BadProjection, not MissingRows. *)
Lemma missing_rows_after_projection :
  build [] (Sample.projected_doc_request []) Sample.fresh
  = (Thrown BadProjection, emit Sample.fresh "INSERT INTO `s`.`c`")
  /\ fst (build [] (Sample.projected_doc_request []) Sample.fresh)
     <> Thrown MissingRows.
Proof. split; [reflexivity | discriminate]. Qed.

Lemma row_validation_witness :
  fst (build [] (Sample.table_request ["a"] [] false) Sample.fresh)
  = Thrown MissingRows
  /\ fst (build [] (Sample.table_request ["a"; "b"] [[Sample.one]] false) Sample.fresh)
     = Thrown RowArityMismatch
  /\ fst (build [] (Sample.doc_request [[Sample.doc_with_id; Sample.one]] false)
               Sample.fresh)
     = Thrown RowArityMismatch.
Proof.
  split; [|split].
  - apply (proj1 (row_validation [] (Sample.table_request ["a"] [] false) Sample.fresh));
      [reflexivity | left; reflexivity].
  - apply (proj1 (proj2 (row_validation []
                           (Sample.table_request ["a"; "b"] [[Sample.one]] false)
                           Sample.fresh)));
      [reflexivity|].
    apply Exists_cons_hd. right. split; discriminate.
  - apply (proj2 (proj2 (row_validation []
                           (Sample.doc_request [[Sample.doc_with_id; Sample.one]] false)
                           Sample.fresh)));
      [reflexivity | reflexivity |].
    apply Exists_cons_hd. discriminate.
Defined.

(** C8: a relational request whose rows match its projection fails when
    upsert is set. *)
Lemma relational_upsert_fails :
  build [] (Sample.table_request ["a"; "b"] [[Sample.one; Sample.two]] true) Sample.fresh
  = (Thrown UpsertNotSupported,
     emit Sample.fresh "INSERT INTO `s`.`c` (`a`,`b`) VALUES (1,2)").
Proof. reflexivity. Qed.

Lemma relational_statement_witness :
  build [] (Sample.table_request ["a"; "b"]
              [[Sample.one; Sample.two]; [Sample.two; Sample.one]] false)
        Sample.fresh
  = (Done tt, emit Sample.fresh "INSERT INTO `s`.`c` (`a`,`b`) VALUES (1,2),(2,1)").
Proof.
  apply (relational_statement []
           (Sample.table_request ["a"; "b"]
              [[Sample.one; Sample.two]; [Sample.two; Sample.one]] false)
           Sample.fresh);
    try reflexivity; try discriminate.
  intros r [<- | [<- | []]]; reflexivity.
Defined.

(** C10: rows of one and of two fields, without projection; the build
    fails when upsert is set. *)
Lemma unconstrained_rows_upsert_fails :
  build [] (Sample.table_request [] [[Sample.one]; [Sample.one; Sample.two]] true)
        Sample.fresh
  = (Thrown UpsertNotSupported,
     emit Sample.fresh "INSERT INTO `s`.`c` VALUES (1),(1,2)").
Proof. reflexivity. Qed.

Lemma relational_rows_unconstrained_witness :
  build [] (Sample.table_request [] [[Sample.one]; [Sample.one; Sample.two]] false)
        Sample.fresh
  = (Done tt, emit Sample.fresh "INSERT INTO `s`.`c` VALUES (1),(1,2)").
Proof.
  apply (relational_rows_unconstrained []
           (Sample.table_request [] [[Sample.one]; [Sample.one; Sample.two]] false)
           Sample.fresh);
    try reflexivity; try discriminate.
  intros r [<- | [<- | []]]; discriminate.
Defined.

(** * The further properties on concrete requests *)

Lemma table_build_keeps_aggregator_witness :
  m_document_id_aggregator
    (snd (build [] (Sample.table_request ["a"] [[Sample.one]] true) Sample.fresh))
  = m_document_id_aggregator Sample.fresh.
Proof.
  apply (table_build_keeps_aggregator []
           (Sample.table_request ["a"] [[Sample.one]] true) Sample.fresh).
  reflexivity.
Defined.

Lemma table_build_accepts_witness :
  fst (build [] (Sample.table_request ["a"; "b"] [[Sample.one; Sample.two]] false)
             Sample.fresh)
  = Done tt.
Proof.
  apply (proj2 (table_build_accepts []
                  (Sample.table_request ["a"; "b"] [[Sample.one; Sample.two]] false)
                  Sample.fresh eq_refl)).
  split; [discriminate | split; [|reflexivity]].
  intros r [<- | []]. split; [discriminate | reflexivity].
Defined.

Lemma built_statement_shape_witness :
  exists rows_text,
    m_builder (snd (build [] (Sample.doc_request [[Sample.doc_with_id]] true)
                          Sample.fresh))
    = m_builder Sample.fresh ++ "INSERT INTO " ++ gen_collection Sample.coll
      ++ column_list (Sample.doc_request [[Sample.doc_with_id]] true)
      ++ " VALUES " ++ rows_text ++ upsert_clause.
Proof.
  apply (built_statement_shape [] (Sample.doc_request [[Sample.doc_with_id]] true)
           Sample.fresh).
  reflexivity.
Defined.

Lemma document_minted_count_witness :
  length (generated_ids
            (snd (build []
                    (Sample.doc_request
                       [[Sample.doc_without_id]; [Sample.doc_with_id];
                        [Sample.doc_without_id]] false)
                    Sample.fresh)))
  = (length (generated_ids Sample.fresh) + 2)%nat.
Proof.
  apply (document_minted_count []
           (Sample.doc_request
              [[Sample.doc_without_id]; [Sample.doc_with_id];
               [Sample.doc_without_id]] false)
           Sample.fresh
           (snd (build []
                   (Sample.doc_request
                      [[Sample.doc_without_id]; [Sample.doc_with_id];
                       [Sample.doc_without_id]] false)
                   Sample.fresh)));
    [reflexivity | vm_compute; reflexivity].
Defined.

Lemma minted_ids_survive_failure_witness :
  fst (build [] (Sample.doc_request [[Sample.doc_without_id]; []] false) Sample.fresh)
  = Thrown RowArityMismatch
  /\ generated_ids
       (snd (build [] (Sample.doc_request [[Sample.doc_without_id]; []] false)
                   Sample.fresh))
     = (generated_ids Sample.fresh ++ [minted_id Sample.fresh])%list.
Proof.
  apply (minted_ids_survive_failure []
           (Sample.doc_request [[Sample.doc_without_id]; []] false)
           Sample.fresh Sample.doc_without_id {| field := [] |} []);
    try reflexivity.
  discriminate.
Defined.

Lemma document_statement_without_synthesis_witness :
  build [] (Sample.doc_request [[Sample.doc_with_id]; [ARRAY []]] false) Sample.fresh
  = (Done tt,
     emit Sample.fresh
          ("INSERT INTO `s`.`c` (doc) VALUES ('" ++ Sample.json_with_id
           ++ "'),(JSON_ARRAY())")).
Proof.
  apply (document_statement_without_synthesis []
           (Sample.doc_request [[Sample.doc_with_id]; [ARRAY []]] false)
           Sample.fresh);
    try reflexivity; try discriminate.
  intros r [<- | [<- | []]]; eexists; split; reflexivity.
Defined.

Lemma placeholder_rows_witness :
  add_document [V_STRING Sample.json_without_id None] [PLACEHOLDER 0] Sample.fresh
  = add_document [V_STRING Sample.json_without_id None]
                 [LITERAL (V_STRING Sample.json_without_id None)] Sample.fresh
  /\ add_document [V_STRING Sample.json_without_id None] [PLACEHOLDER 5] Sample.fresh
     = (Done tt, emit Sample.fresh "(?)").
Proof.
  split.
  - apply (proj1 (placeholder_rows [V_STRING Sample.json_without_id None] 0%N
                    Sample.fresh));
      [reflexivity | discriminate].
  - apply (proj2 (placeholder_rows [V_STRING Sample.json_without_id None] 5%N
                    Sample.fresh)).
    cbn. lia.
Defined.

Lemma is_id_in_object_keys_witness :
  is_id_in_object [("a", Sample.one); ("_id", Sample.two)] = true.
Proof.
  apply (proj2 (is_id_in_object_keys [("a", Sample.one); ("_id", Sample.two)])).
  right. left. reflexivity.
Defined.

Lemma add_document_literal_accepts_witness :
  add_document_literal [] (V_OCTETS Sample.json_with_id 3) Sample.fresh
  = (Done false, Sample.fresh).
Proof.
  apply (proj2 (add_document_literal_accepts [] (V_OCTETS Sample.json_with_id 3)
                  Sample.fresh)).
  reflexivity.
Defined.

Lemma configue_succeeds_witness :
  fst (fst (configue (Sample.session [(7, 1, 1)%N]) Sample.aggregator)) = None.
Proof.
  apply (proj2 (proj1 (configue_succeeds (Sample.session [(7, 1, 1)%N])
                         Sample.aggregator))).
  eexists. reflexivity.
Defined.

Lemma configue_returns_thrown_error_witness :
  configue (Sample.broken_session {| error := ER_OTHER 1045; message := "denied" |})
           Sample.aggregator
  = (Some {| error := ER_OTHER 1045; message := "denied" |}, Sample.aggregator,
     {| answer := fun _ => Thrown {| error := ER_OTHER 1045; message := "denied" |};
        executed := [configue_sql] |}).
Proof.
  apply (configue_returns_thrown_error
           (Sample.broken_session {| error := ER_OTHER 1045; message := "denied" |})
           Sample.aggregator).
  reflexivity.
Defined.

Lemma configue_then_generate_id_witness :
  generate_id
    (with_buffer "x" (snd (fst (configue (Sample.session [(9, 2, 3)%N])
                                         Sample.aggregator))))
  = (Done "9-0",
     with_buffer "x"
       {| m_base_id_generator := 1%N;
          m_variables := {| prefix := 9; auto_increment_offset := 2;
                            auto_increment_increment := 3 |};
          m_document_ids := ["9-0"] |}).
Proof.
  apply (configue_then_generate_id (Sample.session [(9, 2, 3)%N]) Sample.aggregator
           9%N 2%N 3%N "x").
  reflexivity.
Defined.


Lemma document_build_requires_witness :
  projection (Sample.doc_request [[ARRAY []]; [PLACEHOLDER 0]] true) = []
  /\ row (Sample.doc_request [[ARRAY []]; [PLACEHOLDER 0]] true) <> []
  /\ forall r, In r (row (Sample.doc_request [[ARRAY []]; [PLACEHOLDER 0]] true)) ->
               length (field r) = 1%nat.
Proof.
  apply (document_build_requires [V_NULL]
           (Sample.doc_request [[ARRAY []]; [PLACEHOLDER 0]] true)
           Sample.fresh);
    reflexivity.
Defined.
